(** * notifications-bot: registration handlers, storage and dispatch loop

    A shallow embedding of the Go sources

      - the signed registration handlers of package [notifications]
        ([RegisterToken], [RegisterTrackedID], [UnregisterToken],
        [UnregisterTrackedID]),
      - the main loop of package [notifications] ([RunNotificationLoop],
        [notifyUser], [pollForNotifications]),
      - [storage/databaseImpl.go] ([GetUser], [DeleteUser], [UpsertUser]),
      - [firebase/fcm.go] ([sendNotification]),

    followed by the properties the specification states about them.

    Conventions.  Go values of type [error] are modelled by [errors.error]
    with [None] for [nil]; a [time.Time] is the number of nanoseconds since
    the Unix epoch; effects (the wall clock, the database tables, the
    messages handed to the push provider, the polls sent to the gateway)
    are threaded through the state monad [M] over [World]. *)

From Stdlib Require Import ZArith List String Ascii Bool Lia.
From Stdlib.Strings Require Import Byte.
From Stdlib Require Import DecimalString.
Import ListNotations.

Local Open Scope string_scope.
Local Open Scope Z_scope.

Definition bytes := list byte.

(** Go's [string(b)] conversion of a byte slice. *)
Definition string_of_bytes (b : bytes) : string := string_of_list_byte b.

(* ================================================================== *)
(** ** Package [fmt]: the verbs the sources use *)

Module fmt.

(** The operand a verb asks for when the argument list has run out. *)
Definition missing (verb : string) : string := "%!" ++ verb ++ "(MISSING)".

Definition next (verb : string) (args : list string) : string :=
  match args with
  | [] => missing verb
  | a :: _ => a
  end.

(** [Sprintf] restricted to the verbs [%s], [%d] and [%+v]; the operands
    are passed already rendered. *)
Fixpoint Sprintf (format : string) (args : list string) : string :=
  match format with
  | EmptyString => EmptyString
  | String "%" (String "s" rest) => next "s" args ++ Sprintf rest (tl args)
  | String "%" (String "d" rest) => next "d" args ++ Sprintf rest (tl args)
  | String "%" (String "+" (String "v" rest)) =>
      next "v" args ++ Sprintf rest (tl args)
  | String c rest => String c (Sprintf rest args)
  end.

Definition byte_decimal (b : byte) : string :=
  NilZero.string_of_uint (N.to_uint (Byte.to_N b)).

(** [%+v] of a [[]byte]: the decimal values between square brackets. *)
Definition bytes_v (b : bytes) : string :=
  "[" ++ String.concat " " (map byte_decimal b) ++ "]".

End fmt.

(* ================================================================== *)
(** ** Package [strings] *)

Module strings.

(** [strings.Contains(s, substr)]: scan [s] for a position at which
    [substr] is a prefix. *)
Fixpoint Contains (s substr : string) : bool :=
  prefix substr s ||
  match s with
  | EmptyString => false
  | String _ rest => Contains rest substr
  end.

End strings.

(* ================================================================== *)
(** ** Package [github.com/pkg/errors] *)

Module errors.

Inductive error : Type :=
| Errorf (format : string) (args : list string)
    (* errors.New (no operands) and errors.Errorf *)
| Wrapf (cause : error) (format : string) (args : list string).
    (* errors.Wrap, errors.Wrapf and errors.WithMessage *)

Definition New (msg : string) : error := Errorf msg [].
Definition Wrap (cause : error) (msg : string) : error := Wrapf cause msg [].
Definition WithMessage (cause : error) (msg : string) : error :=
  Wrapf cause msg [].

(** [err.Error()]: a wrapped error prints its own message, a colon and
    the message of its cause. *)
Fixpoint Error (e : error) : string :=
  match e with
  | Errorf format args => fmt.Sprintf format args
  | Wrapf cause format args =>
      fmt.Sprintf format args ++ ": " ++ Error cause
  end.

(** The operand rendered for [%+v] of an [error] (stack traces are not
    part of the model); [nil] prints as [<nil>]. *)
Definition v (e : option error) : string :=
  match e with
  | None => "<nil>"
  | Some e => Error e
  end.

End errors.

Abbreviation error := errors.error.

(* ================================================================== *)
(** ** Package [time] *)

Module time.

(** A [time.Time] without monotonic reading, as nanoseconds since the
    Unix epoch; a [time.Duration] is an [int64] count of nanoseconds. *)
Definition Time := Z.
Definition Duration := Z.

Definition minDuration : Duration := - 2 ^ 63.
Definition maxDuration : Duration := 2 ^ 63 - 1.

Definition Nanosecond : Duration := 1.
Definition Millisecond : Duration := 1000000.
Definition Second : Duration := 1000000000.
Definition Hour : Duration := 3600 * Second.

(** [time.Unix(sec, nsec)]. *)
Definition Unix (sec nsec : Z) : Time := sec * Second + nsec.

(** [t.Sub(u)]: the difference, saturated to the range of [Duration]. *)
Definition Sub (t u : Time) : Duration :=
  let d := t - u in
  if d <? minDuration then minDuration
  else if maxDuration <? d then maxDuration
  else d.

(** [t.Add(d)]. *)
Definition Add (t : Time) (d : Duration) : Time := t + d.

End time.

(* ================================================================== *)
(** ** External packages

    The cryptographic and network primitives the handlers call live in
    other repositories ([elixxir/crypto], [xx_network/primitives]); they
    are taken as an interface. *)

(** The tags of [elixxir/crypto/notifications] that separate the four
    kinds of signed request. *)
Inductive Tag : Type :=
| RegisterTokenTag
| UnregisterTokenTag
| RegisterTrackedIDTag
| UnregisterTrackedIDTag.

Class Libs : Type := {
  (** [xx_network/crypto/signature/rsa.PublicKey], the key of a host *)
  HostPublicKey : Type;
  (** [elixxir/crypto/rsa.PublicKey], the key of a client *)
  PublicKey : Type;
  (** [id.ID] and the well-known [id.Permissioning] *)
  ID : Type;
  id_Permissioning : ID;
  (** [t.String()] of a [time.Time] *)
  time_String : time.Time -> string;
  (** [registration.VerifyWithTimestamp(pub, timestamp, pem, sig)] *)
  registration_VerifyWithTimestamp :
    HostPublicKey -> Z -> string -> bytes -> option error;
  (** [rsa.GetScheme().UnmarshalPublicKeyPEM(pem)] *)
  rsa_UnmarshalPublicKeyPEM : bytes -> PublicKey + error;
  (** [notifications.VerifyToken(pub, token, app, timestamp, tag, sig)] *)
  notifications_VerifyToken :
    PublicKey -> string -> string -> time.Time -> Tag -> bytes -> option error;
  (** [notifications.VerifyIdentity(pub, iid, timestamp, tag, sig)] *)
  notifications_VerifyIdentity :
    PublicKey -> bytes -> time.Time -> Tag -> bytes -> option error;
  (** [ephemeral.HandleQuantization(t)]: the offset and the epoch of [t] *)
  ephemeral_HandleQuantization : time.Time -> Z * Z;
  (** the width of an epoch window (section 3 of the spec: the epoch
      duration) *)
  ephemeral_Period : time.Duration;
  (** the ephemeral identity derived from an intermediary identity, an
      offset and an address-space size (section 3 of the spec) *)
  ephemeral_GetId : bytes -> Z -> Z -> Z;
  (** the fingerprint of a PEM-encoded transmission key, the identity key
      of a User (section 3 of the spec) *)
  Fingerprint : bytes -> string;
}.

(** [ndf.AddressSpace]. *)
Module ndf.
Record AddressSpace : Type := { Size : Z; Timestamp : Z }.
End ndf.

(** The protocol messages of [elixxir/comms/mixmessages]. *)
Module pb.

Module RegisterTokenRequest.
Record t : Type := {
  App : string;
  Token : string;
  TransmissionRsaPem : bytes;
  RegistrationTimestamp : Z;
  TransmissionRsaRegistrarSig : bytes;
  RequestTimestamp : Z;
  TokenSignature : bytes;
}.
End RegisterTokenRequest.

Module UnregisterTokenRequest.
Record t : Type := {
  App : string;
  Token : string;
  TransmissionRsaPem : bytes;
  RequestTimestamp : Z;
  TokenSignature : bytes;
}.
End UnregisterTokenRequest.

Module TrackedIntermediaryIdRequest.
Record t : Type := {
  TrackedIntermediaryID : bytes;
  TransmissionRsaPem : bytes;
  RequestTimestamp : Z;
  Signature : bytes;
}.
End TrackedIntermediaryIdRequest.

Module RegisterTrackedIdRequest.
Record t : Type := {
  Request : TrackedIntermediaryIdRequest.t;
  RegistrationTimestamp : Z;
  TransmissionRsaRegistrarSig : bytes;
}.
End RegisterTrackedIdRequest.

End pb.

(* ================================================================== *)
(** ** The world the program runs in *)

(** [storage.User]. *)
Record User : Type := { Id : string; Token : string }.

(** Modelled from the spec: the TrackedIdentity entity of the data model
    (its Go declaration is not among the sources): intermediary identity,
    owning key fingerprint, epoch and address-space size. *)
Record Identity : Type := {
  IntermediaryId : bytes;
  Owner : string;
  Epoch : Z;
  AddressSpaceSize : Z;
}.

(** Modelled from the spec: the EphemeralEpochRecord entity of the data
    model (its Go declaration is not among the sources): derived ephemeral
    identity, the tracked identity it was derived from, epoch, creation
    time and expiry time. *)
Record Ephemeral : Type := {
  EphemeralId : Z;
  Source : bytes;
  Offset : Z;
  Created : time.Time;
  Expiry : time.Time;
}.

(** The three tables behind the storage layer. *)
Record Database : Type := {
  users : list User;
  identities : list Identity;
  ephemerals : list Ephemeral;
}.

(** [messaging.Message] with its [messaging.Notification] flattened. *)
Record Message : Type := { Title : string; Body : string; To : string }.

Record World : Type := {
  wall : nat -> time.Time;  (* what successive calls of time.Now() read *)
  reads : nat;              (* how many readings were taken *)
  tables : Database;        (* the contents of the database *)
  sent : list Message;      (* the messages handed to the push provider *)
  polls : nat;              (* how many polls the gateway has answered *)
}.

Definition set_reads (n : nat) (w : World) : World :=
  {| wall := wall w; reads := n; tables := tables w; sent := sent w;
     polls := polls w |}.
Definition set_tables (d : Database) (w : World) : World :=
  {| wall := wall w; reads := reads w; tables := d; sent := sent w;
     polls := polls w |}.
Definition set_sent (l : list Message) (w : World) : World :=
  {| wall := wall w; reads := reads w; tables := tables w; sent := l;
     polls := polls w |}.
Definition set_polls (n : nat) (w : World) : World :=
  {| wall := wall w; reads := reads w; tables := tables w; sent := sent w;
     polls := n |}.

Definition set_users (l : list User) (d : Database) : Database :=
  {| users := l; identities := identities d; ephemerals := ephemerals d |}.
Definition set_identities (l : list Identity) (d : Database) : Database :=
  {| users := users d; identities := l; ephemerals := ephemerals d |}.
Definition set_ephemerals (l : list Ephemeral) (d : Database) : Database :=
  {| users := users d; identities := identities d; ephemerals := l |}.

(** Computations that read and change the world. *)
Definition M (A : Type) : Type := World -> A * World.

Definition ret {A : Type} (a : A) : M A := fun w => (a, w).

Definition bind {A B : Type} (c : M A) (k : A -> M B) : M B :=
  fun w => let (a, w') := c w in k a w'.

Notation "x <- c ;; k" := (bind c (fun x => k))
  (at level 61, c at next level, right associativity).
Notation "' p <- c ;; k" := (bind c (fun x => match x with p => k end))
  (at level 61, p pattern, c at next level, right associativity).

(** What a Go call ends in: a returned value or a run-time panic. *)
Inductive outcome (A : Type) : Type :=
| Return (a : A)
| Panic (reason : string).
Arguments Return {A} a.
Arguments Panic {A} reason.

(** [time.Now()]: take the next reading of the wall clock. *)
Definition time_Now : M time.Time :=
  fun w => (wall w (reads w), set_reads (S (reads w)) w).

Definition get_tables : M Database := fun w => (tables w, w).
Definition put_tables (d : Database) : M unit :=
  fun w => (tt, set_tables d w).

(* ================================================================== *)
(** ** The [go-pg] calls of [databaseImpl.go], on the users table

    A table is the list of its rows; [Id] is the primary key. *)

Module pg.

Definition ErrNoRows : error := errors.New "pg: no rows in result set".

Definition hasId (id : string) (u : User) : bool := String.eqb (Id u) id.

Definition select (id : string) (t : list User) : option User :=
  find (hasId id) t.

Definition delete (id : string) (t : list User) : list User :=
  filter (fun u => negb (hasId id u)) t.

Definition upsert (user : User) (t : list User) : list User :=
  if existsb (hasId (Id user)) t
  then map (fun row => if hasId (Id user) row
                       then {| Id := Id row; Token := Token user |}
                       else row) t
  else t ++ [user].

Definition with_users (t : list User) (w : World) : World :=
  set_tables (set_users t (tables w)) w.

(** [db.pg.Select(u)]: read the row whose primary key is [u.Id]. *)
Definition Select (id : string) (w : World) : User + error :=
  match select id (users (tables w)) with
  | Some row => inl row
  | None => inr ErrNoRows
  end.

(** [db.pg.Delete(u)]: remove the row whose primary key is [u.Id]; the
    driver reports [ErrNoRows] when no row was affected. *)
Definition Delete (id : string) : M (option error) :=
  fun w =>
    if existsb (hasId id) (users (tables w))
    then (None, with_users (delete id (users (tables w))) w)
    else (Some ErrNoRows, w).

(** [db.pg.Model(user).OnConflict("(Id) DO UPDATE").
    Set("Token = EXCLUDED.Token").Insert()]: a row with the same key has
    its token replaced, otherwise the row is added.  The model is of a
    connection that works and of a table that stores the row as it is
    given, so the statement reports no error here; [UpsertUser] keeps
    both of its error returns for a database that answers otherwise. *)
Definition InsertOnConflictSetToken (user : User) : M (option error) :=
  fun w => (None, with_users (upsert user (users (tables w))) w).

End pg.

(* ================================================================== *)
(** ** Package [storage] *)

Module storage.

(** The [Storage] interface: the methods the handlers and the dispatch
    loop call on it. *)
Record Storage : Type := {
  GetUser : string -> World -> User + error;
  DeleteUser : string -> M (option error);
  UpsertUser : User -> M (option error);
  RegisterToken : string -> string -> bytes -> M (option error);
  UnregisterToken : string -> bytes -> M (option error);
  RegisterTrackedID : bytes -> bytes -> Z -> Z -> M (option error);
  UnregisterTrackedIDs : bytes -> bytes -> M (option error);
}.

Module DatabaseImpl.
Section DatabaseImpl.
Context `{Libs}.

(** Obtain User from backend by primary key. *)
Definition GetUser (userId : string) (w : World) : User + error :=
  match pg.Select userId w with
  | inr err =>
      inr (errors.Errorf "Failed to retrieve user with ID %s: %+v"
                         [userId; errors.v (Some err)])
  | inl u => inl u
  end.

(** Delete User from backend by primary key. *)
Definition DeleteUser (userId : string) : M (option error) :=
  err <- pg.Delete userId ;;
  match err with
  | Some err =>
      ret (Some (errors.Errorf "Failed to delete user with ID %s: %+v"
                               [userId; errors.v (Some err)]))
  | None => ret None
  end.

(** Insert or Update User into backend. *)
Definition UpsertUser (user : User) : M (option error) :=
  let expectedToken := Token user in
  err <- pg.InsertOnConflictSetToken user ;;
  match err with
  | Some err =>
      ret (Some (errors.Errorf "Failed to insert user %s: %+v"
                               [Id user; errors.v (Some err)]))
  | None =>
      fun w =>
        match pg.Select (Id user) w with
        | inr err =>
            (Some (errors.Errorf "User was not inserted properly: %+v"
                                 [errors.v (Some err)]), w)
        | inl user' =>
            if negb (String.eqb expectedToken (Token user'))
            then (Some (errors.Errorf "User was not inserted properly: %+v"
                                      [errors.v None]), w)
            else (None, w)
        end
  end.

(** Modelled from the spec: [Storage.RegisterToken] is not among the
    sources.  Section 4.1 (4): it upserts the User keyed by the key
    fingerprint. *)
Definition RegisterToken (token app : string) (transmissionRSA : bytes)
  : M (option error) :=
  UpsertUser {| Id := Fingerprint transmissionRSA; Token := token |}.

(** Modelled from the spec: [Storage.UnregisterToken] is not among the
    sources.  Sections 3 and 4.1: the User of the key is deleted, and
    it is not an error if there is none. *)
Definition UnregisterToken (token : string) (transmissionRSA : bytes)
  : M (option error) :=
  db <- get_tables ;;
  _ <- put_tables
         (set_users
            (filter (fun u => negb (pg.hasId (Fingerprint transmissionRSA) u))
                    (users db)) db) ;;
  ret None.

(** The TrackedIdentity [t] is the one of [iid] and [owner]. *)
Definition tracks (iid : bytes) (owner : string) (t : Identity) : bool :=
  if list_eq_dec Byte.byte_eq_dec (IntermediaryId t) iid
  then String.eqb (Owner t) owner else false.

(** The record [e] was derived from the identity of [t] for its epoch. *)
Definition covers (t : Identity) (e : Ephemeral) : bool :=
  if list_eq_dec Byte.byte_eq_dec (Source e) (IntermediaryId t)
  then Z.eqb (Offset e) (Epoch t) else false.

(** Modelled from the spec: the epoch record of a TrackedIdentity (its
    construction is not among the sources).  Section 3: the ephemeral
    identity is computed from (intermediary identity, offset,
    address-space size); the record is valid for exactly one epoch
    window, and its expiry is its creation time plus the epoch duration,
    the duration used for the quantization.  The creation time is that
    of the window the record is created for, not the time of the insert:
    [TestImpl_InitDeleter] adds a record for the epoch of thirty hours
    ago and requires the next deleter pass to remove it. *)
Definition epochRecord (t : Identity) : Ephemeral :=
  {| EphemeralId :=
       ephemeral_GetId (IntermediaryId t) (Epoch t) (AddressSpaceSize t);
     Source := IntermediaryId t;
     Offset := Epoch t;
     Created := Epoch t * ephemeral_Period;
     Expiry := time.Add (Epoch t * ephemeral_Period) ephemeral_Period |}.

(** Modelled from the spec: the creation of an EphemeralEpochRecord is
    not among the sources.  Section 4.1: a registration immediately
    triggers the creation of the epoch record of the new identity;
    sections 5 and 9: the write is an upsert under the unique key
    (identity, offset), so that racing writers converge to exactly one
    record for the epoch. *)
Definition AddLatestEphemeral (t : Identity) : M unit :=
  db <- get_tables ;;
  put_tables
    (set_ephemerals
       (filter (fun e => negb (covers t e)) (ephemerals db) ++
        [epochRecord t]) db).

(** Modelled from the spec: [Storage.RegisterTrackedID] is not among
    the sources.  Section 4.1: it inserts a TrackedIdentity at the
    given epoch with the given address-space size and immediately
    triggers epoch-record creation for it; by the handler's comment it
    returns an error if the key is not registered with a token. *)
Definition RegisterTrackedID (iid transmissionRSA : bytes)
           (epoch addressSpace : Z) : M (option error) :=
  db <- get_tables ;;
  match pg.select (Fingerprint transmissionRSA) (users db) with
  | None =>
      ret (Some (errors.WithMessage pg.ErrNoRows
                   "Cannot register tracked ID to unregistered user"))
  | Some u =>
      let t := {| IntermediaryId := iid; Owner := Id u; Epoch := epoch;
                  AddressSpaceSize := addressSpace |} in
      _ <- put_tables
             (set_identities
                (filter (fun x => negb (tracks iid (Id u) x))
                        (identities db) ++ [t]) db) ;;
      _ <- AddLatestEphemeral t ;;
      ret None
  end.

(** Modelled from the spec: [Storage.UnregisterTrackedIDs] is not
    among the sources.  Sections 3 and 4.1: the TrackedIdentity is
    removed, and it is not an error if there is none. *)
Definition UnregisterTrackedIDs (iid transmissionRSA : bytes)
  : M (option error) :=
  db <- get_tables ;;
  _ <- put_tables
         (set_identities
            (filter (fun x => negb (tracks iid (Fingerprint transmissionRSA) x))
                    (identities db)) db) ;;
  ret None.

(** The expiry time of [e] has passed at [now]. *)
Definition expired (now : time.Time) (e : Ephemeral) : bool :=
  Expiry e <? now.

(** The identity [t] loses its epoch record in a pass at [now]: a record
    that covers it has expired. *)
Definition pruned (now : time.Time) (records : list Ephemeral)
           (t : Identity) : bool :=
  existsb (fun e => expired now e && covers t e) records.

(** Modelled from the spec: the pruning operation of the deleter pass
    is not among the sources.  Section 4.2, deleter pass: every
    EphemeralEpochRecord whose expiry time has passed is deleted, by the
    expiry it carries; section 3: a TrackedIdentity is removed when its
    epoch record is pruned. *)
Definition DeleteOldEphemerals (now : time.Time) : M (option error) :=
  db <- get_tables ;;
  _ <- put_tables
         (set_ephemerals
            (filter (fun e => negb (expired now e)) (ephemerals db))
            (set_identities
               (filter (fun t => negb (pruned now (ephemerals db) t))
                       (identities db)) db)) ;;
  ret None.

Definition impl : Storage := {|
  storage.GetUser := GetUser;
  storage.DeleteUser := DeleteUser;
  storage.UpsertUser := UpsertUser;
  storage.RegisterToken := RegisterToken;
  storage.UnregisterToken := UnregisterToken;
  storage.RegisterTrackedID := RegisterTrackedID;
  storage.UnregisterTrackedIDs := UnregisterTrackedIDs;
|}.

End DatabaseImpl.
End DatabaseImpl.

End storage.

(* ================================================================== *)
(** ** Package [firebase] *)

Module firebase.

(** [FBSender]: what the provider answers to a message, given the
    messages it has received before. *)
Record FBSender : Type := {
  Send : list Message -> Message -> string * option error;
}.

Definition SendFunc : Type := FBSender -> string -> M (string * option error).

Record FirebaseComm : Type := { SendNotification : SendFunc }.

(** [app.Send(ctx, message)]: the message reaches the provider. *)
Definition app_Send (app : FBSender) (message : Message)
  : M (string * option error) :=
  fun w => (Send app (sent w) message, set_sent (sent w ++ [message]) w).

(** [sendNotification] builds the fixed notification for [token] and
    sends it through the provider. *)
Definition sendNotification (app : FBSender) (token : string)
  : M (string * option error) :=
  let message := {| Title := "xx Messenger";
                    Body := "You have a new message in the xx Messenger";
                    To := token |} in
  '(resp, err) <- app_Send app message ;;
  match err with
  | Some err =>
      ret (resp, Some (errors.Wrapf err
                         "Failed to send notification.  Response: %+v"
                         [resp]))
  | None => ret (resp, None)
  end.

Definition NewFirebaseComm : FirebaseComm :=
  {| SendNotification := sendNotification |}.

(** FOR TESTING USE ONLY: a comm with a mocked send function. *)
Definition NewMockFirebaseComm (sendFunc : SendFunc) : FirebaseComm :=
  {| SendNotification := sendFunc |}.

End firebase.

(* ================================================================== *)
(** ** Package [notifications] *)

Module notifications.
Section notifications.
Context `{Libs}.

Record Host : Type := { GetPubKey : HostPublicKey }.

(** [NotificationComms]: [RequestNotifications] answers the n-th poll. *)
Record NotificationComms : Type := {
  GetHost : ID -> option Host;
  RequestNotifications : Host -> nat -> list bytes + error;
}.

(** The data fields of [Impl]; [inst_AddressSpace] stands for
    [nb.inst.GetPartialNdf().Get().AddressSpace]. *)
Record Fields : Type := {
  Comms : NotificationComms;
  Storage : storage.Storage;
  fcm : firebase.FBSender;
  gwId : ID;
  inst_AddressSpace : list ndf.AddressSpace;
}.

(** Function type definitions for the main operations (poll and notify) *)
Definition PollFunc : Type := Fields -> M (list bytes + error).
Definition NotifyFunc : Type :=
  firebase.FBSender -> string -> firebase.FirebaseComm -> storage.Storage ->
  M (string * option error).

Record Impl : Type := {
  fields :> Fields;
  pollFunc : PollFunc;
  notifyFunc : NotifyFunc;
}.

(** *** The signed registration handlers *)

Definition timestampError : string :=
  "Timestamp of request must be within last 5 seconds.  Request timestamp: %s, current time: %s".

(** The freshness test that opens the four handlers; when the request is
    stale it yields the error they return. *)
Definition checkTimestamp (requestTimestamp : time.Time)
  : M (option error) :=
  now <- time_Now ;;
  if 5 * time.Second <? time.Sub now requestTimestamp
  then
    now' <- time_Now ;;
    ret (Some (errors.Errorf timestampError
                 [time_String requestTimestamp; time_String now']))
  else ret None.

(** The verification of the permissioning signature shared by the two
    registering handlers. *)
Definition verifyPermissioning (nb : Impl) (registrationTimestamp : Z)
           (pem registrarSig : bytes) : option error :=
  match GetHost (Comms nb) id_Permissioning with
  | None =>
      Some (errors.New
              "Could not find permissioning host to verify client signature")
  | Some permHost =>
      match registration_VerifyWithTimestamp
              (GetPubKey permHost) registrationTimestamp
              (string_of_bytes pem) registrarSig with
      | Some err =>
          Some (errors.WithMessage err
                  "Failed to verify permissioning signature")
      | None => None
      end
  end.

(** RegisterToken registers the given token.  It will succeed if the
    token is already registered. *)
Definition RegisterToken (nb : Impl) (msg : pb.RegisterTokenRequest.t)
  : M (option error) :=
  let requestTimestamp :=
    time.Unix 0 (pb.RegisterTokenRequest.RequestTimestamp msg) in
  stale <- checkTimestamp requestTimestamp ;;
  match stale with
  | Some err => ret (Some err)
  | None =>
  (* Verify permissioning RSA signature *)
  match verifyPermissioning nb
          (pb.RegisterTokenRequest.RegistrationTimestamp msg)
          (pb.RegisterTokenRequest.TransmissionRsaPem msg)
          (pb.RegisterTokenRequest.TransmissionRsaRegistrarSig msg) with
  | Some err => ret (Some err)
  | None =>
  (* Verify token signature *)
  match rsa_UnmarshalPublicKeyPEM
          (pb.RegisterTokenRequest.TransmissionRsaPem msg) with
  | inr err => ret (Some (errors.WithMessage err "Failed to unmarshal public key"))
  | inl pub =>
  match notifications_VerifyToken pub
          (pb.RegisterTokenRequest.Token msg)
          (pb.RegisterTokenRequest.App msg)
          requestTimestamp RegisterTokenTag
          (pb.RegisterTokenRequest.TokenSignature msg) with
  | Some err => ret (Some (errors.WithMessage err "Failed to verify token signature"))
  | None =>
      storage.RegisterToken (Storage nb)
        (pb.RegisterTokenRequest.Token msg)
        (pb.RegisterTokenRequest.App msg)
        (pb.RegisterTokenRequest.TransmissionRsaPem msg)
  end end end end.

(** RegisterTrackedID registers the given ID to be tracked.  Returns an
    error if TransmissionRSA is not registered with a valid token. *)
Definition RegisterTrackedID (nb : Impl)
           (msg : pb.RegisterTrackedIdRequest.t)
  : M (outcome (option error)) :=
  let request := pb.RegisterTrackedIdRequest.Request msg in
  let requestTimestamp :=
    time.Unix 0 (pb.TrackedIntermediaryIdRequest.RequestTimestamp request) in
  stale <- checkTimestamp requestTimestamp ;;
  match stale with
  | Some err => ret (Return (Some err))
  | None =>
  (* Verify permissioning RSA signature *)
  match verifyPermissioning nb
          (pb.RegisterTrackedIdRequest.RegistrationTimestamp msg)
          (pb.TrackedIntermediaryIdRequest.TransmissionRsaPem request)
          (pb.RegisterTrackedIdRequest.TransmissionRsaRegistrarSig msg) with
  | Some err => ret (Return (Some err))
  | None =>
  match rsa_UnmarshalPublicKeyPEM
          (pb.TrackedIntermediaryIdRequest.TransmissionRsaPem request) with
  | inr err =>
      ret (Return (Some (errors.WithMessage err "Failed to unmarshal public key")))
  | inl pub =>
  match notifications_VerifyIdentity pub
          (pb.TrackedIntermediaryIdRequest.TrackedIntermediaryID request)
          requestTimestamp RegisterTrackedIDTag
          (pb.TrackedIntermediaryIdRequest.Signature request) with
  | Some err =>
      ret (Return (Some (errors.WithMessage err "Failed to verify identity signature")))
  | None =>
      now <- time_Now ;;
      let epoch := snd (ephemeral_HandleQuantization now) in
      match inst_AddressSpace nb with
      | [] => ret (Panic "runtime error: index out of range [0] with length 0")
      | addressSpace :: _ =>
          err <- storage.RegisterTrackedID (Storage nb)
                   (pb.TrackedIntermediaryIdRequest.TrackedIntermediaryID request)
                   (pb.TrackedIntermediaryIdRequest.TransmissionRsaPem request)
                   epoch (ndf.Size addressSpace) ;;
          ret (Return err)
      end
  end end end end.

(** UnregisterToken unregisters the given device token.  Does not return
    an error if the token cannot be found. *)
Definition UnregisterToken (nb : Impl) (msg : pb.UnregisterTokenRequest.t)
  : M (option error) :=
  let requestTimestamp :=
    time.Unix 0 (pb.UnregisterTokenRequest.RequestTimestamp msg) in
  stale <- checkTimestamp requestTimestamp ;;
  match stale with
  | Some err => ret (Some err)
  | None =>
  match rsa_UnmarshalPublicKeyPEM
          (pb.UnregisterTokenRequest.TransmissionRsaPem msg) with
  | inr err => ret (Some (errors.WithMessage err "Failed to unmarshal public key"))
  | inl pub =>
  match notifications_VerifyToken pub
          (pb.UnregisterTokenRequest.Token msg)
          (pb.UnregisterTokenRequest.App msg)
          requestTimestamp UnregisterTokenTag
          (pb.UnregisterTokenRequest.TokenSignature msg) with
  | Some err => ret (Some (errors.WithMessage err "Failed to verify token signature"))
  | None =>
      storage.UnregisterToken (Storage nb)
        (pb.UnregisterTokenRequest.Token msg)
        (pb.UnregisterTokenRequest.TransmissionRsaPem msg)
  end end end.

(** UnregisterTrackedID unregisters the given tracked ID.  Does not
    return an error if the ID cannot be found. *)
Definition UnregisterTrackedID (nb : Impl)
           (msg : pb.TrackedIntermediaryIdRequest.t) : M (option error) :=
  let requestTimestamp :=
    time.Unix 0 (pb.TrackedIntermediaryIdRequest.RequestTimestamp msg) in
  stale <- checkTimestamp requestTimestamp ;;
  match stale with
  | Some err => ret (Some err)
  | None =>
  match rsa_UnmarshalPublicKeyPEM
          (pb.TrackedIntermediaryIdRequest.TransmissionRsaPem msg) with
  | inr err => ret (Some (errors.WithMessage err "Failed to unmarshal public key"))
  | inl pub =>
  match notifications_VerifyIdentity pub
          (pb.TrackedIntermediaryIdRequest.TrackedIntermediaryID msg)
          requestTimestamp UnregisterTrackedIDTag
          (pb.TrackedIntermediaryIdRequest.Signature msg) with
  | Some err => ret (Some (errors.WithMessage err "Failed to verify identity signature"))
  | None =>
      storage.UnregisterTrackedIDs (Storage nb)
        (pb.TrackedIntermediaryIdRequest.TrackedIntermediaryID msg)
        (pb.TrackedIntermediaryIdRequest.TransmissionRsaPem msg)
  end end end.

(** *** The dispatch loop *)

(** NotifyUser retrieves a user's token and sends the notification. *)
Definition notifyUser (fcm : firebase.FBSender) (uid : string)
           (fc : firebase.FirebaseComm) (db : storage.Storage)
  : M (string * option error) :=
  fun w =>
    match storage.GetUser db uid w with
    | inr _ =>
        (* This path is not an error.  If no results are returned, the
           user hasn't registered for notifications *)
        ("", None, w)
    | inl u =>
        ('(resp, err) <- firebase.SendNotification fc fcm (Token u) ;;
         match err with
         | Some err =>
             (* 403 and 404 indicate that the token stored is incorrect:
                rather than crashing, unregister the user *)
             if strings.Contains (errors.Error err) "403"
                || strings.Contains (errors.Error err) "404"
             then
               err <- storage.DeleteUser db uid ;;
               match err with
               | Some err =>
                   ret ("", Some (errors.Wrapf err
                          "Failed to remove user registration for uid: %+v"
                          [uid]))
               | None => ret (resp, None)
               end
             else
               ret ("", Some (errors.Wrapf err
                      "Failed to send notification to user with ID %+v"
                      [uid]))
         | None => ret (resp, None)
         end) w
    end.

(** pollForNotifications retrieves the list of user ids to be notified
    from the gateway. *)
Definition pollForNotifications (nb : Fields) : M (list bytes + error) :=
  match GetHost (Comms nb) (gwId nb) with
  | None => ret (inr (errors.New "Could not find gateway host"))
  | Some h =>
      fun w =>
        (match RequestNotifications (Comms nb) h (polls w) with
         | inr err =>
             inr (errors.Wrap err
                    "Failed to retrieve notifications from gateway")
         | inl users => inl users
         end, set_polls (S (polls w)) w)
  end.

(** The body of [for _, id := range UIDs]: the value is the error the
    loop sends on [errChan] before it returns, if there is one. *)
Fixpoint notifyAll (nb : Impl) (fc : firebase.FirebaseComm)
         (UIDs : list bytes) : M (option error) :=
  match UIDs with
  | [] => ret None
  | id :: rest =>
      (* Attempt to notify a given user (will not error if UID not
         registered) *)
      '(_, err) <- notifyFunc nb (fcm nb) (string_of_bytes id) fc
                     (Storage nb) ;;
      match err with
      | Some err =>
          ret (Some (errors.Wrapf err "Failed to notify user with ID %+v"
                                  [fmt.bytes_v id]))
      | None => notifyAll nb fc rest
      end
  end.

(** Which case of the [select] at the top of an iteration fires. *)
Inductive Select : Type :=
| killChan    (* case <-killChan *)
| timeAfter.  (* case <-time.After(loopDuration ms) *)

(** How far the loop got on a finite schedule of [select] outcomes. *)
Inductive Exit : Type :=
| Returned  (* the function returned *)
| Waiting.  (* the schedule ended with the loop blocked in [select] *)

(** RunNotificationLoop loops continuously, polling for notifications
    and notifying the relevant users.  The schedule lists the outcome of
    each [select]; the list in the result is the content of [errChan]. *)
Fixpoint RunNotificationLoop (nb : Impl) (schedule : list Select)
         (errChan : list error) : M (Exit * list error) :=
  let fc := firebase.NewFirebaseComm in
  match schedule with
  | [] => ret (Waiting, errChan)
  | killChan :: _ =>
      (* Stop execution if killed by channel *)
      ret (Returned, errChan)
  | timeAfter :: schedule' =>
      (* Poll for UIDs to notify *)
      polled <- pollFunc nb nb ;;
      match polled with
      | inr err =>
          ret (Returned,
               (errChan ++
                [errors.Wrap err
                   "Failed to poll gateway for users to notify"])%list)
      | inl UIDs =>
          failed <- notifyAll nb fc UIDs ;;
          match failed with
          | Some err => ret (Returned, (errChan ++ [err])%list)
          | None => RunNotificationLoop nb schedule' errChan
          end
      end
  end.

(** The stored functions [StartNotifications] sets up. *)
Definition StartNotifications (f : Fields) : Impl :=
  {| fields := f;
     pollFunc := pollForNotifications;
     notifyFunc := notifyUser |}.

(** Modelled from the spec: the ticker behind [initDeleter] is not among
    the sources.  Section 4.2: one deleter pass reads the clock and
    deletes every EphemeralEpochRecord whose expiry time has passed. *)
Definition deleterPass : M (option error) :=
  now <- time_Now ;;
  storage.DatabaseImpl.DeleteOldEphemerals now.

End notifications.
End notifications.

(* ================================================================== *)
(** ** Test doubles

    Stand-ins for the external packages and collaborators, in the manner
    of the mocks of the repository's tests; the scenarios at the end of
    the file run the handlers and the loop on them. *)

Module testing.

(** A signature check that rejects exactly the empty signature. *)
Definition verify (sig : bytes) : option error :=
  match sig with
  | [] => Some (errors.New "crypto/rsa: verification error")
  | _ :: _ => None
  end.

#[export] Instance libs : Libs := {|
  HostPublicKey := unit;
  PublicKey := bytes;
  ID := nat;
  id_Permissioning := 0%nat;
  time_String := fun t => NilZero.string_of_int (Z.to_int t);
  registration_VerifyWithTimestamp := fun _ _ _ sig => verify sig;
  rsa_UnmarshalPublicKeyPEM := fun pem =>
    match pem with
    | [] => inr (errors.New "could not decode PEM")
    | _ :: _ => inl pem
    end;
  notifications_VerifyToken := fun _ _ _ _ _ sig => verify sig;
  notifications_VerifyIdentity := fun _ _ _ _ sig => verify sig;
  ephemeral_HandleQuantization := fun t =>
    ((t / (24 * time.Hour)) mod 65536, t / (24 * time.Hour));
  ephemeral_Period := 24 * time.Hour;
  ephemeral_GetId := fun iid offset size => offset mod 2 ^ size;
  Fingerprint := string_of_bytes;
|}.

Definition pem : bytes := list_byte_of_string "key".
Definition sig : bytes := list_byte_of_string "signature".
Definition iid : bytes := list_byte_of_string "abc123".

Definition noTables : Database :=
  {| users := []; identities := []; ephemerals := [] |}.

(** A clock that starts at 100 s and advances one second per reading. *)
Definition boot (d : Database) : World :=
  {| wall := fun n => (100 + Z.of_nat n) * time.Second;
     reads := 0;
     tables := d;
     sent := [];
     polls := 0 |}.

(** A provider that knows the token [tokA] and answers 404 to others. *)
Definition provider : firebase.FBSender :=
  {| firebase.Send := fun _ message =>
       if String.eqb (To message) "tokA"
       then ("projects/xx/messages/1", None)
       else ("", Some (errors.New
               "http error status: 404; reason: app instance has been unregistered")) |}.

(** A provider that is out of service. *)
Definition unavailable : firebase.FBSender :=
  {| firebase.Send := fun _ _ =>
       ("", Some (errors.New "http error status: 500; reason: internal error")) |}.

(** A gateway that answers the first poll with an empty batch, the
    second with one identity and fails afterwards. *)
Definition comms : notifications.NotificationComms :=
  {| notifications.GetHost := fun _ =>
       Some {| notifications.GetPubKey := tt |};
     notifications.RequestNotifications := fun _ n =>
       match n with
       | O => inl []
       | S O => inl [pem]
       | S (S _) => inr (errors.New "context deadline exceeded")
       end |}.

Definition fieldsWith (fcm : firebase.FBSender) : notifications.Fields :=
  {| notifications.Comms := comms;
     notifications.Storage := storage.DatabaseImpl.impl;
     notifications.fcm := fcm;
     notifications.gwId := 1%nat;
     notifications.inst_AddressSpace :=
       [{| ndf.Size := 16; ndf.Timestamp := 0 |}] |}.

Definition nb : notifications.Impl :=
  notifications.StartNotifications (fieldsWith provider).

(** A storage whose [DeleteUser] fails. *)
Definition readOnly : storage.Storage :=
  {| storage.GetUser := storage.DatabaseImpl.GetUser;
     storage.DeleteUser := fun _ =>
       ret (Some (errors.New "pg: connection refused"));
     storage.UpsertUser := storage.DatabaseImpl.UpsertUser;
     storage.RegisterToken := storage.DatabaseImpl.RegisterToken;
     storage.UnregisterToken := storage.DatabaseImpl.UnregisterToken;
     storage.RegisterTrackedID := storage.DatabaseImpl.RegisterTrackedID;
     storage.UnregisterTrackedIDs :=
       storage.DatabaseImpl.UnregisterTrackedIDs |}.

Definition registerToken (token : string) (requestTimestamp : Z)
  : pb.RegisterTokenRequest.t :=
  {| pb.RegisterTokenRequest.App := "xx";
     pb.RegisterTokenRequest.Token := token;
     pb.RegisterTokenRequest.TransmissionRsaPem := pem;
     pb.RegisterTokenRequest.RegistrationTimestamp := 0;
     pb.RegisterTokenRequest.TransmissionRsaRegistrarSig := sig;
     pb.RegisterTokenRequest.RequestTimestamp := requestTimestamp;
     pb.RegisterTokenRequest.TokenSignature := sig |}.

Definition unregisterToken (requestTimestamp : Z)
  : pb.UnregisterTokenRequest.t :=
  {| pb.UnregisterTokenRequest.App := "xx";
     pb.UnregisterTokenRequest.Token := "tokA";
     pb.UnregisterTokenRequest.TransmissionRsaPem := pem;
     pb.UnregisterTokenRequest.RequestTimestamp := requestTimestamp;
     pb.UnregisterTokenRequest.TokenSignature := sig |}.

Definition trackedId (requestTimestamp : Z)
  : pb.TrackedIntermediaryIdRequest.t :=
  {| pb.TrackedIntermediaryIdRequest.TrackedIntermediaryID := iid;
     pb.TrackedIntermediaryIdRequest.TransmissionRsaPem := pem;
     pb.TrackedIntermediaryIdRequest.RequestTimestamp := requestTimestamp;
     pb.TrackedIntermediaryIdRequest.Signature := sig |}.

Definition registerTrackedId (requestTimestamp : Z)
  : pb.RegisterTrackedIdRequest.t :=
  {| pb.RegisterTrackedIdRequest.Request := trackedId requestTimestamp;
     pb.RegisterTrackedIdRequest.RegistrationTimestamp := 0;
     pb.RegisterTrackedIdRequest.TransmissionRsaRegistrarSig := sig |}.

(** Request times: 99 s is within the window of a clock at 100 s, the
    epoch is not. *)
Definition recent : Z := 99 * time.Second.
Definition old : Z := 0.

Definition oneUser (token : string) : Database :=
  {| users := [{| Id := "key"; Token := token |}];
     identities := [];
     ephemerals := [] |}.

End testing.

(* ================================================================== *)
(** * Properties *)

Import notifications.

(** ** Time and the freshness window *)

Lemma Sub_exceeds (t u : time.Time) (d : time.Duration) :
  0 <= d < time.maxDuration ->
  (d <? time.Sub t u) = true <-> t - u > d.
Proof.
  unfold time.Sub, time.minDuration, time.maxDuration. cbv zeta.
  assert (E63 : 2 ^ 63 = 9223372036854775808) by reflexivity.
  rewrite E63. intros Hd.
  destruct (t - u <? _) eqn:Elo;
    [apply Z.ltb_lt in Elo | apply Z.ltb_ge in Elo].
  - rewrite Z.ltb_lt. lia.
  - destruct (_ <? t - u) eqn:Ehi;
      [apply Z.ltb_lt in Ehi | apply Z.ltb_ge in Ehi];
      rewrite Z.ltb_lt; lia.
Qed.

Lemma five_seconds_in_range : 0 <= 5 * time.Second < time.maxDuration.
Proof. unfold time.Second, time.maxDuration. split; [lia | reflexivity]. Qed.

(** ** The users table *)

Lemma hasId_iff (id : string) (u : User) : pg.hasId id u = true <-> Id u = id.
Proof. unfold pg.hasId. apply String.eqb_eq. Qed.

Lemma existsb_find_none {A : Type} (p : A -> bool) (l : list A) :
  existsb p l = false -> find p l = None.
Proof.
  induction l as [| a l IH]; simpl; [reflexivity |].
  destruct (p a); simpl; [discriminate | exact IH].
Qed.

Lemma find_filter {A : Type} (p : A -> bool) (l : list A) :
  find p (filter p l) = find p l.
Proof.
  induction l as [| a l IH]; simpl; [reflexivity |].
  destruct (p a) eqn:E; simpl; [now rewrite E | exact IH].
Qed.

Lemma filter_none {A : Type} (p : A -> bool) (l : list A) :
  existsb p l = false -> filter p l = [].
Proof.
  induction l as [| a l IH]; simpl; [reflexivity |].
  destruct (p a); simpl; [discriminate | exact IH].
Qed.

Lemma filter_negb_all {A : Type} (p : A -> bool) (l : list A) :
  existsb p l = false -> filter (fun a => negb (p a)) l = l.
Proof.
  induction l as [| a l IH]; simpl; [reflexivity |].
  destruct (p a); simpl; [discriminate |].
  intros E. now rewrite IH.
Qed.

Lemma existsb_filter_negb {A : Type} (p : A -> bool) (l : list A) :
  existsb p (filter (fun a => negb (p a)) l) = false.
Proof.
  induction l as [| a l IH]; simpl; [reflexivity |].
  destruct (p a) eqn:E; simpl; [exact IH | now rewrite E].
Qed.

(** Under a primary key, at most one row carries a given key. *)
Lemma key_at_most_once (k : string) (t : list User) :
  NoDup (map Id t) -> (List.length (filter (pg.hasId k) t) <= 1)%nat.
Proof.
  induction t as [| r t IH]; simpl; intros Hnd; [lia |].
  inversion Hnd as [| ? ? Hnotin Hnd']; subst.
  destruct (pg.hasId k r) eqn:E; [| auto].
  apply hasId_iff in E. simpl.
  rewrite filter_none; [simpl; lia |].
  destruct (existsb (pg.hasId k) t) eqn:Ex; [| reflexivity].
  apply existsb_exists in Ex. destruct Ex as [r' [Hin Hr']].
  apply hasId_iff in Hr'. exfalso. apply Hnotin.
  rewrite E, <- Hr'. now apply in_map.
Qed.

Lemma key_at_least_once (k : string) (t : list User) :
  existsb (pg.hasId k) t = true -> (1 <= List.length (filter (pg.hasId k) t))%nat.
Proof.
  induction t as [| r t IH]; simpl; [discriminate |].
  destruct (pg.hasId k r); simpl; [lia | exact IH].
Qed.

Section Upsert.
Variable user : User.

Let retoken (row : User) : User :=
  if pg.hasId (Id user) row
  then {| Id := Id row; Token := Token user |}
  else row.

Lemma retoken_Id (t : list User) : map Id (map retoken t) = map Id t.
Proof.
  induction t as [| r t IH]; simpl; [reflexivity |].
  rewrite IH. unfold retoken. now destruct (pg.hasId (Id user) r).
Qed.

Lemma retoken_hasId (k : string) (row : User) :
  pg.hasId k (retoken row) = pg.hasId k row.
Proof. unfold retoken. now destruct (pg.hasId (Id user) row). Qed.

Lemma retoken_filter_length (k : string) (t : list User) :
  List.length (filter (pg.hasId k) (map retoken t))
  = List.length (filter (pg.hasId k) t).
Proof.
  induction t as [| r t IH]; simpl; [reflexivity |].
  rewrite retoken_hasId. destruct (pg.hasId k r); simpl; now rewrite IH.
Qed.

Lemma retoken_find (t : list User) :
  existsb (pg.hasId (Id user)) t = true ->
  find (pg.hasId (Id user)) (map retoken t)
  = Some {| Id := Id user; Token := Token user |}.
Proof.
  induction t as [| r t IH]; simpl; [discriminate |].
  rewrite retoken_hasId.
  destruct (pg.hasId (Id user) r) eqn:E; simpl.
  - intros _. unfold retoken. rewrite E.
    apply hasId_iff in E. now rewrite E.
  - exact IH.
Qed.

(** Reading back the key that was just upserted yields the new token. *)
Lemma select_upsert (t : list User) :
  pg.select (Id user) (pg.upsert user t)
  = Some {| Id := Id user; Token := Token user |}.
Proof.
  unfold pg.select, pg.upsert.
  destruct (existsb (pg.hasId (Id user)) t) eqn:E.
  - now apply retoken_find.
  - induction t as [| r t IH]; simpl in *.
    + replace (pg.hasId (Id user) user) with true; [now destruct user |].
      symmetry. now apply hasId_iff.
    + destruct (pg.hasId (Id user) r); simpl in *; [discriminate | auto].
Qed.

(** Rows under other keys are read as before. *)
Lemma select_upsert_other (k : string) (t : list User) :
  k <> Id user -> pg.select k (pg.upsert user t) = pg.select k t.
Proof.
  intros Hk. unfold pg.select, pg.upsert.
  assert (Hu : pg.hasId k user = false).
  { destruct (pg.hasId k user) eqn:E; [| reflexivity].
    apply hasId_iff in E. congruence. }
  destruct (existsb (pg.hasId (Id user)) t).
  - fold retoken.
    induction t as [| r t IH]; simpl; [reflexivity |].
    rewrite retoken_hasId. destruct (pg.hasId k r) eqn:E; [| exact IH].
    unfold retoken. destruct (pg.hasId (Id user) r) eqn:E'; [| reflexivity].
    apply hasId_iff in E, E'. congruence.
  - induction t as [| r t IH]; simpl; [now rewrite Hu |].
    destruct (pg.hasId k r); [reflexivity | exact IH].
Qed.

(** The primary key survives an upsert. *)
Lemma upsert_NoDup (t : list User) :
  NoDup (map Id t) -> NoDup (map Id (pg.upsert user t)).
Proof.
  intros Hnd. unfold pg.upsert.
  destruct (existsb (pg.hasId (Id user)) t) eqn:E.
  - fold retoken. now rewrite retoken_Id.
  - rewrite map_app. simpl.
    apply NoDup_app; [exact Hnd | repeat constructor; auto | ].
    intros a Ha [Hb | []]. subst a.
    apply in_map_iff in Ha. destruct Ha as [r [Hr Hin]].
    assert (existsb (pg.hasId (Id user)) t = true); [| congruence].
    apply existsb_exists. exists r. split; [exact Hin | now apply hasId_iff].
Qed.

(** After an upsert exactly one row carries the key. *)
Lemma upsert_one_row (t : list User) :
  NoDup (map Id t) ->
  List.length (filter (pg.hasId (Id user)) (pg.upsert user t)) = 1%nat.
Proof.
  intros Hnd.
  pose proof (key_at_most_once (Id user) _ (upsert_NoDup t Hnd)) as Hle.
  assert (Hge : (1 <= List.length (filter (pg.hasId (Id user))
                                     (pg.upsert user t)))%nat).
  { apply key_at_least_once.
    pose proof (select_upsert t) as Hs. unfold pg.select in Hs.
    apply find_some in Hs. apply existsb_exists. eauto. }
  lia.
Qed.

End Upsert.

(** ** Substrings *)

(** [sub] occurs in [s]. *)
Definition occurs (sub s : string) : Prop :=
  exists pre post, s = pre ++ sub ++ post.

Lemma prefix_iff (sub s : string) :
  prefix sub s = true <-> exists post, s = sub ++ post.
Proof.
  revert s. induction sub as [| c sub IH]; intros s.
  - destruct s; simpl; split; eauto.
  - destruct s as [| c' s]; simpl.
    + split; [discriminate | intros [post E]; discriminate].
    + destruct (ascii_dec c c') as [-> | Hne].
      * rewrite IH. split; intros [post E]; exists post; congruence.
      * split; [discriminate | intros [post E]; congruence].
Qed.

Lemma Contains_iff (s sub : string) :
  strings.Contains s sub = true <-> occurs sub s.
Proof.
  unfold occurs. induction s as [| c s IH].
  - cbn [strings.Contains]. rewrite orb_false_r, prefix_iff. split.
    + intros [post E]. exists EmptyString, post. exact E.
    + intros [pre [post E]]. destruct pre; [eauto | discriminate].
  - cbn [strings.Contains]. rewrite orb_true_iff, prefix_iff, IH. split.
    + intros [[post E] | [pre [post E]]].
      * exists EmptyString, post. exact E.
      * exists (String c pre), post. simpl. now rewrite E.
    + intros [pre [post E]]. destruct pre as [| c' pre]; simpl in E.
      * left. eauto.
      * right. exists pre, post. congruence.
Qed.

Section Properties.
Context `{Libs}.

(** The request stamped [ts] is stale for the reading the clock of [w]
    gives next: more than five seconds lie between them. *)
Definition stale (w : World) (ts : Z) : Prop :=
  wall w (reads w) - time.Unix 0 ts > 5 * time.Second.

(** The error the handlers return for a stale request. *)
Definition staleRequest (w : World) (ts : Z) : error :=
  errors.Errorf timestampError
    [time_String (time.Unix 0 ts); time_String (wall w (S (reads w)))].

Lemma checkTimestamp_stale (w : World) (ts : Z) :
  stale w ts ->
  checkTimestamp (time.Unix 0 ts) w
  = (Some (staleRequest w ts), set_reads (S (S (reads w))) w).
Proof.
  intros Hs. unfold checkTimestamp, bind, time_Now.
  apply (Sub_exceeds _ _ _ five_seconds_in_range) in Hs.
  rewrite Hs. reflexivity.
Qed.

Lemma checkTimestamp_fresh (w : World) (ts : Z) :
  ~ stale w ts ->
  checkTimestamp (time.Unix 0 ts) w = (None, set_reads (S (reads w)) w).
Proof.
  intros Hs. unfold checkTimestamp, bind, time_Now.
  destruct (5 * time.Second <? time.Sub (wall w (reads w)) (time.Unix 0 ts))
    eqn:E; [| reflexivity].
  apply (Sub_exceeds _ _ _ five_seconds_in_range) in E. contradiction.
Qed.

(** C1.  A request to any of the four signed operations whose timestamp
    lies more than five seconds before the current time is answered with
    the stale-request error built from [timestampError], whatever the
    signatures in it are (nothing is assumed of them), and the tables of
    the storage and the messages sent to the provider are left as they
    were: only the clock has been read, twice. *)
Theorem stale_request_rejected (nb : Impl) (w : World) (ts : Z)
        (Hstale : stale w ts) :
  let w' := set_reads (S (S (reads w))) w in
  (forall msg, pb.RegisterTokenRequest.RequestTimestamp msg = ts ->
     RegisterToken nb msg w = (Some (staleRequest w ts), w')) /\
  (forall msg,
     pb.TrackedIntermediaryIdRequest.RequestTimestamp
       (pb.RegisterTrackedIdRequest.Request msg) = ts ->
     RegisterTrackedID nb msg w = (Return (Some (staleRequest w ts)), w')) /\
  (forall msg, pb.UnregisterTokenRequest.RequestTimestamp msg = ts ->
     UnregisterToken nb msg w = (Some (staleRequest w ts), w')) /\
  (forall msg, pb.TrackedIntermediaryIdRequest.RequestTimestamp msg = ts ->
     UnregisterTrackedID nb msg w = (Some (staleRequest w ts), w')) /\
  tables w' = tables w /\ sent w' = sent w /\ polls w' = polls w.
Proof.
  intros w'. pose proof (checkTimestamp_stale w ts Hstale) as Hc.
  repeat split; intros msg Hts.
  - unfold RegisterToken, bind. rewrite Hts, Hc. reflexivity.
  - unfold RegisterTrackedID, bind. rewrite Hts, Hc. reflexivity.
  - unfold UnregisterToken, bind. rewrite Hts, Hc. reflexivity.
  - unfold UnregisterTrackedID, bind. rewrite Hts, Hc. reflexivity.
Qed.

(** ** Registration of a token *)

Lemma UpsertUser_ok (user : User) (w : World) :
  storage.DatabaseImpl.UpsertUser user w
  = (None, pg.with_users (pg.upsert user (users (tables w))) w).
Proof.
  unfold storage.DatabaseImpl.UpsertUser, bind,
    pg.InsertOnConflictSetToken, pg.Select.
  cbn [pg.with_users set_tables set_users tables users].
  rewrite select_upsert. cbn [Token].
  now rewrite String.eqb_refl.
Qed.

Lemma GetUser_upserted (user : User) (w : World) :
  storage.DatabaseImpl.GetUser (Id user)
    (pg.with_users (pg.upsert user (users (tables w))) w)
  = inl {| Id := Id user; Token := Token user |}.
Proof.
  unfold storage.DatabaseImpl.GetUser, pg.Select.
  cbn [pg.with_users set_tables set_users tables users].
  now rewrite select_upsert.
Qed.

(** The world after a registration of [token] under the key [pem] was
    accepted: the clock was read once and the row was upserted. *)
Definition registered (pem : bytes) (token : string) (w : World) : World :=
  let w1 := set_reads (S (reads w)) w in
  pg.with_users
    (pg.upsert {| Id := Fingerprint pem; Token := token |} (users (tables w1)))
    w1.

(** A token request that passes every check of [RegisterToken] in the
    world [w]: fresh, co-signed by the permissioning authority, and
    signed by the key it carries. *)
Definition acceptable (nb : Impl) (w : World)
           (msg : pb.RegisterTokenRequest.t) : Prop :=
  ~ stale w (pb.RegisterTokenRequest.RequestTimestamp msg) /\
  verifyPermissioning nb
    (pb.RegisterTokenRequest.RegistrationTimestamp msg)
    (pb.RegisterTokenRequest.TransmissionRsaPem msg)
    (pb.RegisterTokenRequest.TransmissionRsaRegistrarSig msg) = None /\
  exists pub,
    rsa_UnmarshalPublicKeyPEM (pb.RegisterTokenRequest.TransmissionRsaPem msg)
    = inl pub /\
    notifications_VerifyToken pub
      (pb.RegisterTokenRequest.Token msg) (pb.RegisterTokenRequest.App msg)
      (time.Unix 0 (pb.RegisterTokenRequest.RequestTimestamp msg))
      RegisterTokenTag (pb.RegisterTokenRequest.TokenSignature msg) = None.

Lemma RegisterToken_accepted (nb : Impl) (w : World)
      (msg : pb.RegisterTokenRequest.t) :
  Storage nb = storage.DatabaseImpl.impl ->
  acceptable nb w msg ->
  RegisterToken nb msg w
  = (None, registered (pb.RegisterTokenRequest.TransmissionRsaPem msg)
                      (pb.RegisterTokenRequest.Token msg) w).
Proof.
  intros Hst (Hfresh & Hperm & pub & Hpub & Hsig).
  unfold RegisterToken, bind.
  rewrite (checkTimestamp_fresh _ _ Hfresh), Hperm, Hpub, Hsig, Hst.
  cbn [storage.RegisterToken storage.DatabaseImpl.impl].
  unfold storage.DatabaseImpl.RegisterToken.
  now rewrite UpsertUser_ok.
Qed.

(** C2.  For a [RegisterToken] request that passes the freshness check:
    when the permissioning host is unknown or the registrar signature
    over (registrationTimestamp, pubKeyPEM) does not verify under its
    key, the request fails with the permissioning error; otherwise, when
    the key does not parse or the token signature over (token, app,
    requestTimestamp, register-token tag) does not verify under it, the
    request fails with the signature error; in all these cases the
    tables are untouched.  Otherwise the User keyed by the fingerprint of
    the key is upserted with the token, the other tables are untouched,
    and the request succeeds. *)
Theorem RegisterToken_verifies (nb : Impl) (w : World)
        (msg : pb.RegisterTokenRequest.t)
        (Hst : Storage nb = storage.DatabaseImpl.impl)
        (Hfresh : ~ stale w (pb.RegisterTokenRequest.RequestTimestamp msg)) :
  let pem := pb.RegisterTokenRequest.TransmissionRsaPem msg in
  let token := pb.RegisterTokenRequest.Token msg in
  let w1 := set_reads (S (reads w)) w in
  (* the registrar signature *)
  (GetHost (Comms nb) id_Permissioning = None ->
   RegisterToken nb msg w
   = (Some (errors.New
              "Could not find permissioning host to verify client signature"),
      w1)) /\
  (forall permHost err,
     GetHost (Comms nb) id_Permissioning = Some permHost ->
     registration_VerifyWithTimestamp (GetPubKey permHost)
       (pb.RegisterTokenRequest.RegistrationTimestamp msg)
       (string_of_bytes pem)
       (pb.RegisterTokenRequest.TransmissionRsaRegistrarSig msg) = Some err ->
     RegisterToken nb msg w
     = (Some (errors.WithMessage err
                "Failed to verify permissioning signature"), w1)) /\
  (* the token signature *)
  (verifyPermissioning nb
     (pb.RegisterTokenRequest.RegistrationTimestamp msg) pem
     (pb.RegisterTokenRequest.TransmissionRsaRegistrarSig msg) = None ->
   (forall err,
      rsa_UnmarshalPublicKeyPEM pem = inr err ->
      RegisterToken nb msg w
      = (Some (errors.WithMessage err "Failed to unmarshal public key"),
         w1)) /\
   (forall pub err,
      rsa_UnmarshalPublicKeyPEM pem = inl pub ->
      notifications_VerifyToken pub token (pb.RegisterTokenRequest.App msg)
        (time.Unix 0 (pb.RegisterTokenRequest.RequestTimestamp msg))
        RegisterTokenTag (pb.RegisterTokenRequest.TokenSignature msg)
      = Some err ->
      RegisterToken nb msg w
      = (Some (errors.WithMessage err "Failed to verify token signature"),
         w1)) /\
   (* the upsert *)
   (forall pub,
      rsa_UnmarshalPublicKeyPEM pem = inl pub ->
      notifications_VerifyToken pub token (pb.RegisterTokenRequest.App msg)
        (time.Unix 0 (pb.RegisterTokenRequest.RequestTimestamp msg))
        RegisterTokenTag (pb.RegisterTokenRequest.TokenSignature msg)
      = None ->
      let w' := registered pem token w in
      RegisterToken nb msg w = (None, w') /\
      users (tables w')
      = pg.upsert {| Id := Fingerprint pem; Token := token |}
                  (users (tables w)) /\
      storage.GetUser (Storage nb) (Fingerprint pem) w'
      = inl {| Id := Fingerprint pem; Token := token |} /\
      identities (tables w') = identities (tables w) /\
      ephemerals (tables w') = ephemerals (tables w))) /\
  tables w1 = tables w.
Proof.
  intros pem token w1.
  pose proof (checkTimestamp_fresh _ _ Hfresh) as Hc.
  split; [| split; [| split; [| reflexivity]]].
  - intros Hhost. unfold RegisterToken, bind, verifyPermissioning.
    now rewrite Hc, Hhost.
  - intros permHost err Hhost Hsig.
    unfold RegisterToken, bind, verifyPermissioning.
    fold pem. now rewrite Hc, Hhost, Hsig.
  - intros Hperm. split; [| split].
    + intros err Hpub. unfold RegisterToken, bind.
      fold pem. now rewrite Hc, Hperm, Hpub.
    + intros pub err Hpub Hsig. unfold RegisterToken, bind.
      fold pem token. now rewrite Hc, Hperm, Hpub, Hsig.
    + intros pub Hpub Hsig w'.
      split; [| split; [reflexivity | split; [| split; reflexivity]]].
      * apply RegisterToken_accepted; [exact Hst |].
        split; [exact Hfresh | split; [exact Hperm | eauto]].
      * rewrite Hst. cbn [storage.GetUser storage.DatabaseImpl.impl].
        apply (GetUser_upserted {| Id := Fingerprint pem; Token := token |}).
Qed.

(** C3.  With the signatures valid, [RegisterToken] followed by
    [GetUser] on the key returns a User whose token is the registered
    one; and after two successive registrations under the same key, with
    tokens tokA and then tokB, [GetUser] returns tokB and the table
    holds exactly one row for the key (the primary key of the table
    being respected before). *)
Theorem RegisterToken_roundtrip (nb : Impl) (w : World)
        (msgA msgB : pb.RegisterTokenRequest.t)
        (Hst : Storage nb = storage.DatabaseImpl.impl)
        (Hkey : NoDup (map Id (users (tables w))))
        (Hsame : pb.RegisterTokenRequest.TransmissionRsaPem msgB
                 = pb.RegisterTokenRequest.TransmissionRsaPem msgA)
        (HA : acceptable nb w msgA)
        (HB : acceptable nb (snd (RegisterToken nb msgA w)) msgB) :
  let key := Fingerprint (pb.RegisterTokenRequest.TransmissionRsaPem msgA) in
  let tokA := pb.RegisterTokenRequest.Token msgA in
  let tokB := pb.RegisterTokenRequest.Token msgB in
  let (errA, wA) := RegisterToken nb msgA w in
  let (errB, wB) := RegisterToken nb msgB wA in
  errA = None /\
  storage.GetUser (Storage nb) key wA = inl {| Id := key; Token := tokA |} /\
  errB = None /\
  storage.GetUser (Storage nb) key wB = inl {| Id := key; Token := tokB |} /\
  filter (pg.hasId key) (users (tables wB)) = [{| Id := key; Token := tokB |}].
Proof.
  intros key tokA tokB.
  rewrite (RegisterToken_accepted nb w msgA Hst HA) in *.
  cbn [snd] in HB.
  rewrite (RegisterToken_accepted nb _ msgB Hst HB).
  rewrite Hsame, Hst. fold key tokA tokB.
  cbn [storage.GetUser storage.DatabaseImpl.impl].
  split; [reflexivity | split; [| split; [reflexivity | split]]].
  - apply (GetUser_upserted {| Id := key; Token := tokA |}).
  - apply (GetUser_upserted {| Id := key; Token := tokB |}).
  - unfold registered.
    cbn [pg.with_users set_tables set_users set_reads tables users].
    set (t := users (tables w)) in *.
    set (uA := {| Id := key; Token := tokA |}).
    set (uB := {| Id := key; Token := tokB |}).
    pose proof (upsert_NoDup uA t Hkey) as HndA.
    assert (Hone : List.length (filter (pg.hasId key)
                      (pg.upsert uB (pg.upsert uA t))) = 1%nat)
      by exact (upsert_one_row uB _ HndA).
    assert (Hsel : find (pg.hasId key) (pg.upsert uB (pg.upsert uA t))
                   = Some uB)
      by exact (select_upsert uB (pg.upsert uA t)).
    change (filter (pg.hasId key) (pg.upsert uB (pg.upsert uA t)) = [uB]).
    destruct (filter (pg.hasId key) (pg.upsert uB (pg.upsert uA t)))
      as [| r [| r' l]] eqn:Ef; try discriminate.
    assert (Hfind : find (pg.hasId key) (filter (pg.hasId key)
                      (pg.upsert uB (pg.upsert uA t))) = Some uB).
    { rewrite find_filter. exact Hsel. }
    rewrite Ef in Hfind. simpl in Hfind.
    destruct (pg.hasId key r); congruence.
Qed.

(** ** Dispatch *)

(** The provider error reports an invalid token: its message contains
    403 or 404. *)
Definition invalidToken (err : error) : Prop :=
  occurs "403" (errors.Error err) \/ occurs "404" (errors.Error err).

Lemma invalidToken_iff (err : error) :
  strings.Contains (errors.Error err) "403"
  || strings.Contains (errors.Error err) "404" = true
  <-> invalidToken err.
Proof.
  unfold invalidToken. now rewrite orb_true_iff, !Contains_iff.
Qed.

(** What [notifyUser] does once the user was found and the send
    failed. *)
Lemma notifyUser_send_failed (fcm : firebase.FBSender) (uid : string)
      (fc : firebase.FirebaseComm) (db : storage.Storage)
      (w w1 : World) (u : User) (resp : string) (err : error) :
  storage.GetUser db uid w = inl u ->
  firebase.SendNotification fc fcm (Token u) w = (resp, Some err, w1) ->
  notifyUser fcm uid fc db w
  = if strings.Contains (errors.Error err) "403"
       || strings.Contains (errors.Error err) "404"
    then
      match storage.DeleteUser db uid w1 with
      | (Some err', w2) =>
          ("", Some (errors.Wrapf err'
                       "Failed to remove user registration for uid: %+v"
                       [uid]), w2)
      | (None, w2) => (resp, None, w2)
      end
    else
      ("", Some (errors.Wrapf err
                   "Failed to send notification to user with ID %+v" [uid]),
       w1).
Proof.
  intros Hu Hsend. unfold notifyUser, bind. rewrite Hu, Hsend.
  destruct (strings.Contains (errors.Error err) "403"
            || strings.Contains (errors.Error err) "404"); [| reflexivity].
  destruct (storage.DeleteUser db uid w1) as [[err' |] w2]; reflexivity.
Qed.

Lemma notifyUser_not_found (fcm : firebase.FBSender) (uid : string)
      (fc : firebase.FirebaseComm) (db : storage.Storage)
      (w : World) (err : error) :
  storage.GetUser db uid w = inr err ->
  notifyUser fcm uid fc db w = ("", None, w).
Proof. intros Hu. unfold notifyUser. now rewrite Hu. Qed.

Lemma notifyAll_app (nb : Impl) (fc : firebase.FirebaseComm)
      (pre post : list bytes) (w : World) :
  notifyAll nb fc (pre ++ post)%list w
  = match notifyAll nb fc pre w with
    | (Some err, w') => (Some err, w')
    | (None, w') => notifyAll nb fc post w'
    end.
Proof.
  revert w. induction pre as [| id pre IH]; intros w; [reflexivity |].
  cbn [notifyAll app]. unfold bind.
  destruct (notifyFunc nb (fcm nb) (string_of_bytes id) fc (Storage nb) w)
    as [[resp [err |]] w']; [reflexivity | apply IH].
Qed.

Lemma RunNotificationLoop_app (nb : Impl) (pre post : list Select)
      (errChan : list error) (w : World) :
  RunNotificationLoop nb (pre ++ post)%list errChan w
  = match RunNotificationLoop nb pre errChan w with
    | (Waiting, errChan', w') => RunNotificationLoop nb post errChan' w'
    | returned => returned
    end.
Proof.
  revert w. induction pre as [| [|] pre IH]; intros w; try reflexivity.
  cbn [RunNotificationLoop app]. unfold bind.
  destruct (pollFunc nb nb w) as [[UIDs | err] w1]; [| reflexivity].
  destruct (notifyAll nb firebase.NewFirebaseComm UIDs w1)
    as [[err |] w2]; [reflexivity | apply IH].
Qed.

Lemma RunNotificationLoop_waiting (nb : Impl) (schedule : list Select)
      (errChan errChan' : list error) (w w' : World) :
  RunNotificationLoop nb schedule errChan w = (Waiting, errChan', w') ->
  errChan' = errChan.
Proof.
  revert w. induction schedule as [| [|] schedule IH]; intros w;
    cbn [RunNotificationLoop]; unfold bind, ret.
  - congruence.
  - discriminate.
  - destruct (pollFunc nb nb w) as [[UIDs | err] w1]; [| discriminate].
    destruct (notifyAll nb firebase.NewFirebaseComm UIDs w1)
      as [[err |] w2]; [discriminate | apply IH].
Qed.

(** The fixed notification [sendNotification] builds for a token. *)
Definition notification (token : string) : Message :=
  {| Title := "xx Messenger";
     Body := "You have a new message in the xx Messenger";
     To := token |}.

Lemma select_deleted (uid : string) (t : list User) :
  pg.select uid (pg.delete uid t) = None.
Proof.
  unfold pg.select, pg.delete.
  apply existsb_find_none, existsb_filter_negb.
Qed.

Lemma select_exists (uid : string) (t : list User) (u : User) :
  pg.select uid t = Some u -> existsb (pg.hasId uid) t = true.
Proof.
  unfold pg.select. intros Hs. apply find_some in Hs.
  apply existsb_exists. eauto.
Qed.

(** C4.  In an iteration of the production loop ([notifyUser] over the
    database and the real [sendNotification]), let the identity resolve
    to a User and the provider answer the send with an error.  When the
    error reports an invalid token (403 or 404), [notifyUser] deletes the
    User and returns no error, and the batch goes on with the next
    identity.  For any other provider error [notifyUser] returns the
    error wrapped and leaves the table alone; the loop sends it, wrapped
    once more, on [errChan] and returns without visiting the rest of the
    batch. *)
Theorem notifyUser_provider_error (f : Fields) (w : World) (uid : string)
        (u : User) (resp : string) (e : error)
        (Hst : Storage f = storage.DatabaseImpl.impl)
        (Hu : storage.GetUser (Storage f) uid w = inl u)
        (Hsend : firebase.Send (fcm f) (sent w) (notification (Token u))
                 = (resp, Some e)) :
  let nb := StartNotifications f in
  let fc := firebase.NewFirebaseComm in
  let err := errors.Wrapf e "Failed to send notification.  Response: %+v"
                          [resp] in
  let w1 := set_sent (sent w ++ [notification (Token u)]) w in
  (invalidToken err ->
   let w2 := pg.with_users (pg.delete uid (users (tables w))) w1 in
   notifyUser (fcm f) uid fc (Storage f) w = (resp, None, w2) /\
   (exists gone, storage.GetUser (Storage f) uid w2 = inr gone) /\
   forall id rest, string_of_bytes id = uid ->
     notifyAll nb fc (id :: rest) w = notifyAll nb fc rest w2) /\
  (~ invalidToken err ->
   let failure := errors.Wrapf err
                    "Failed to send notification to user with ID %+v"
                    [uid] in
   notifyUser (fcm f) uid fc (Storage f) w = ("", Some failure, w1) /\
   tables w1 = tables w /\
   forall pre id rest w0 wp schedule errChan,
     string_of_bytes id = uid ->
     pollFunc nb nb w0 = (inl (pre ++ id :: rest)%list, wp) ->
     notifyAll nb fc pre wp = (None, w) ->
     RunNotificationLoop nb (timeAfter :: schedule) errChan w0
     = (Returned,
        (errChan ++
         [errors.Wrapf failure "Failed to notify user with ID %+v"
                       [fmt.bytes_v id]])%list,
        w1)).
Proof.
  intros nb fc err w1.
  assert (Hs : firebase.SendNotification fc (fcm f) (Token u) w
               = (resp, Some err, w1)).
  { cbn [fc firebase.SendNotification firebase.NewFirebaseComm].
    unfold firebase.sendNotification, bind, firebase.app_Send.
    fold (notification (Token u)). now rewrite Hsend. }
  pose proof (notifyUser_send_failed (fcm f) uid fc (Storage f)
                w w1 u resp err Hu Hs) as Hn.
  assert (Hrow : existsb (pg.hasId uid) (users (tables w1)) = true).
  { rewrite Hst in Hu. cbn [storage.GetUser storage.DatabaseImpl.impl] in Hu.
    unfold storage.DatabaseImpl.GetUser, pg.Select in Hu.
    destruct (pg.select uid (users (tables w))) as [row |] eqn:Hsel;
      [| discriminate].
    exact (select_exists _ _ _ Hsel). }
  split.
  - intros Hinv w2. apply invalidToken_iff in Hinv. rewrite Hinv in Hn.
    assert (Hd : storage.DeleteUser (Storage f) uid w1 = (None, w2)).
    { rewrite Hst. cbn [storage.DeleteUser storage.DatabaseImpl.impl].
      unfold storage.DatabaseImpl.DeleteUser, bind, pg.Delete.
      now rewrite Hrow. }
    rewrite Hd in Hn. split; [exact Hn | split].
    + rewrite Hst. cbn [storage.GetUser storage.DatabaseImpl.impl].
      unfold storage.DatabaseImpl.GetUser, pg.Select.
      cbn [w2 pg.with_users set_tables set_users tables users].
      rewrite select_deleted. eauto.
    + intros id rest Hid. cbn [notifyAll]. unfold bind.
      cbn [nb notifyFunc StartNotifications fields].
      now rewrite Hid, Hn.
  - intros Hother failure.
    destruct (strings.Contains (errors.Error err) "403"
              || strings.Contains (errors.Error err) "404") eqn:Hc.
    { apply invalidToken_iff in Hc. contradiction. }
    split; [exact Hn | split; [reflexivity |]].
    intros pre id rest w0 wp schedule errChan Hid Hpoll Hpre.
    cbn [RunNotificationLoop]. unfold bind. rewrite Hpoll.
    fold fc. rewrite notifyAll_app, Hpre.
    cbn [notifyAll]. unfold bind.
    cbn [nb notifyFunc StartNotifications fields].
    now rewrite Hid, Hn.
Qed.

(** C5.  When no User is found for an identity, [notifyUser] returns no
    error and leaves the world as it was: nothing is sent to the
    provider and no table changes; the batch goes on with the next
    identity. *)
Theorem notifyUser_unregistered (f : Fields) (fc : firebase.FirebaseComm)
        (w : World) (id : bytes) (err : error)
        (Hu : storage.GetUser (Storage f) (string_of_bytes id) w = inr err) :
  let nb := StartNotifications f in
  notifyUser (fcm f) (string_of_bytes id) fc (Storage f) w = ("", None, w) /\
  forall rest, notifyAll nb fc (id :: rest) w = notifyAll nb fc rest w.
Proof.
  intros nb.
  pose proof (notifyUser_not_found (fcm f) _ fc _ _ _ Hu) as Hn.
  split; [exact Hn |].
  intros rest. cbn [notifyAll]. unfold bind.
  cbn [nb notifyFunc StartNotifications fields]. now rewrite Hn.
Qed.

(** C9.  Let the loop have completed the iterations of [done] and be
    back at the top of its body.  If the cancellation signal fires
    there, the loop returns at once, leaving the world and [errChan] as
    they are.  If the timer fires and the poll of the gateway fails, the
    wrapped error is sent on [errChan] and the loop returns in the world
    the poll left: whatever the schedule holds after that is never
    run. *)
Theorem RunNotificationLoop_exits (nb : Impl) (done rest : list Select)
        (errChan errChan' : list error) (w w' : World)
        (Hdone : RunNotificationLoop nb done errChan w
                 = (Waiting, errChan', w')) :
  RunNotificationLoop nb (done ++ killChan :: rest)%list errChan w
  = (Returned, errChan, w') /\
  forall err w'',
    pollFunc nb nb w' = (inr err, w'') ->
    RunNotificationLoop nb (done ++ timeAfter :: rest)%list errChan w
    = (Returned,
       (errChan ++
        [errors.Wrap err "Failed to poll gateway for users to notify"])%list,
       w'').
Proof.
  pose proof (RunNotificationLoop_waiting _ _ _ _ _ _ Hdone) as ->.
  split.
  - now rewrite RunNotificationLoop_app, Hdone.
  - intros err w'' Hpoll. rewrite RunNotificationLoop_app, Hdone.
    cbn [RunNotificationLoop]. unfold bind. now rewrite Hpoll.
Qed.

(** C10.  Once the user was found and the send failed, [notifyUser]
    takes the provider error for an invalid token exactly when its
    message contains 403 or 404.  In that case it calls [DeleteUser]: if
    that fails, the storage error is returned wrapped; if it succeeds,
    no error is returned.  In the other case the provider error is
    returned wrapped and [DeleteUser] is not called. *)
Theorem notifyUser_invalid_token (fcm : firebase.FBSender) (uid : string)
        (fc : firebase.FirebaseComm) (db : storage.Storage)
        (w w1 : World) (u : User) (resp : string) (err : error)
        (Hu : storage.GetUser db uid w = inl u)
        (Hsend : firebase.SendNotification fc fcm (Token u) w
                 = (resp, Some err, w1)) :
  (invalidToken err ->
   (forall err' w2,
      storage.DeleteUser db uid w1 = (Some err', w2) ->
      notifyUser fcm uid fc db w
      = ("", Some (errors.Wrapf err'
                     "Failed to remove user registration for uid: %+v"
                     [uid]), w2)) /\
   (forall w2,
      storage.DeleteUser db uid w1 = (None, w2) ->
      notifyUser fcm uid fc db w = (resp, None, w2))) /\
  (~ invalidToken err ->
   notifyUser fcm uid fc db w
   = ("", Some (errors.Wrapf err
                  "Failed to send notification to user with ID %+v" [uid]),
      w1)).
Proof.
  pose proof (notifyUser_send_failed fcm uid fc db w w1 u resp err Hu Hsend)
    as Hn.
  split.
  - intros Hinv. apply invalidToken_iff in Hinv. rewrite Hinv in Hn.
    split; [intros err' w2 Hd | intros w2 Hd]; now rewrite Hd in Hn.
  - intros Hother.
    destruct (strings.Contains (errors.Error err) "403"
              || strings.Contains (errors.Error err) "404") eqn:Hc;
      [| exact Hn].
    apply invalidToken_iff in Hc. contradiction.
Qed.

(** ** Unregistration *)

(** An [UnregisterToken] request that passes the checks of the handler
    in the world [w]: fresh and signed by the key it carries. *)
Definition unregisterable (w : World) (msg : pb.UnregisterTokenRequest.t)
  : Prop :=
  ~ stale w (pb.UnregisterTokenRequest.RequestTimestamp msg) /\
  exists pub,
    rsa_UnmarshalPublicKeyPEM (pb.UnregisterTokenRequest.TransmissionRsaPem msg)
    = inl pub /\
    notifications_VerifyToken pub
      (pb.UnregisterTokenRequest.Token msg)
      (pb.UnregisterTokenRequest.App msg)
      (time.Unix 0 (pb.UnregisterTokenRequest.RequestTimestamp msg))
      UnregisterTokenTag (pb.UnregisterTokenRequest.TokenSignature msg)
    = None.

(** The same for an [UnregisterTrackedID] request. *)
Definition untrackable (w : World)
           (msg : pb.TrackedIntermediaryIdRequest.t) : Prop :=
  ~ stale w (pb.TrackedIntermediaryIdRequest.RequestTimestamp msg) /\
  exists pub,
    rsa_UnmarshalPublicKeyPEM
      (pb.TrackedIntermediaryIdRequest.TransmissionRsaPem msg) = inl pub /\
    notifications_VerifyIdentity pub
      (pb.TrackedIntermediaryIdRequest.TrackedIntermediaryID msg)
      (time.Unix 0 (pb.TrackedIntermediaryIdRequest.RequestTimestamp msg))
      UnregisterTrackedIDTag
      (pb.TrackedIntermediaryIdRequest.Signature msg) = None.

Lemma UnregisterToken_accepted (nb : Impl) (w : World)
      (msg : pb.UnregisterTokenRequest.t) :
  Storage nb = storage.DatabaseImpl.impl ->
  unregisterable w msg ->
  UnregisterToken nb msg w
  = (None,
     pg.with_users
       (pg.delete
          (Fingerprint (pb.UnregisterTokenRequest.TransmissionRsaPem msg))
          (users (tables w)))
       (set_reads (S (reads w)) w)).
Proof.
  intros Hst (Hfresh & pub & Hpub & Hsig).
  unfold UnregisterToken, bind.
  now rewrite (checkTimestamp_fresh _ _ Hfresh), Hpub, Hsig, Hst.
Qed.

Lemma UnregisterTrackedID_accepted (nb : Impl) (w : World)
      (msg : pb.TrackedIntermediaryIdRequest.t) :
  Storage nb = storage.DatabaseImpl.impl ->
  untrackable w msg ->
  UnregisterTrackedID nb msg w
  = (None,
     set_tables
       (set_identities
          (filter
             (fun x => negb
                (storage.DatabaseImpl.tracks
                   (pb.TrackedIntermediaryIdRequest.TrackedIntermediaryID msg)
                   (Fingerprint
                      (pb.TrackedIntermediaryIdRequest.TransmissionRsaPem msg))
                   x))
             (identities (tables w)))
          (tables w))
       (set_reads (S (reads w)) w)).
Proof.
  intros Hst (Hfresh & pub & Hpub & Hsig).
  unfold UnregisterTrackedID, bind.
  now rewrite (checkTimestamp_fresh _ _ Hfresh), Hpub, Hsig, Hst.
Qed.

Lemma set_users_same (d : Database) : set_users (users d) d = d.
Proof. now destruct d. Qed.

Lemma set_identities_same (d : Database) :
  set_identities (identities d) d = d.
Proof. now destruct d. Qed.

(** C6.  [UnregisterToken] and [UnregisterTrackedID] are idempotent
    deletes.  A valid signed request succeeds; when the request is made
    a second time in succession (and is valid then), it succeeds again
    and the storage stays as the first call left it; and when the
    entity is absent from the storage, the request succeeds and the
    storage is unchanged. *)
Theorem unregister_idempotent (nb : Impl) (w : World)
        (Hst : Storage nb = storage.DatabaseImpl.impl) :
  (forall msg : pb.UnregisterTokenRequest.t,
     unregisterable w msg ->
     let key :=
       Fingerprint (pb.UnregisterTokenRequest.TransmissionRsaPem msg) in
     let (err1, w1) := UnregisterToken nb msg w in
     err1 = None /\
     pg.select key (users (tables w1)) = None /\
     (existsb (pg.hasId key) (users (tables w)) = false ->
      tables w1 = tables w) /\
     (unregisterable w1 msg ->
      let (err2, w2) := UnregisterToken nb msg w1 in
      err2 = None /\ tables w2 = tables w1)) /\
  (forall msg : pb.TrackedIntermediaryIdRequest.t,
     untrackable w msg ->
     let tracked :=
       storage.DatabaseImpl.tracks
         (pb.TrackedIntermediaryIdRequest.TrackedIntermediaryID msg)
         (Fingerprint
            (pb.TrackedIntermediaryIdRequest.TransmissionRsaPem msg)) in
     let (err1, w1) := UnregisterTrackedID nb msg w in
     err1 = None /\
     existsb tracked (identities (tables w1)) = false /\
     (existsb tracked (identities (tables w)) = false ->
      tables w1 = tables w) /\
     (untrackable w1 msg ->
      let (err2, w2) := UnregisterTrackedID nb msg w1 in
      err2 = None /\ tables w2 = tables w1)).
Proof.
  split; intros msg Hok.
  - intros key. rewrite (UnregisterToken_accepted nb w msg Hst Hok).
    fold key.
    cbn [pg.with_users set_tables set_users set_reads tables users].
    split; [reflexivity | split; [apply select_deleted | split]].
    + intros Habs. unfold pg.delete.
      rewrite (filter_negb_all _ _ Habs). apply set_users_same.
    + intros Hok'. rewrite (UnregisterToken_accepted nb _ msg Hst Hok').
      fold key.
      cbn [pg.with_users set_tables set_users set_reads tables users
           identities ephemerals].
      split; [reflexivity |]. unfold pg.delete at 1.
      rewrite filter_negb_all; [reflexivity |].
      apply existsb_filter_negb.
  - intros tracked. rewrite (UnregisterTrackedID_accepted nb w msg Hst Hok).
    fold tracked.
    cbn [set_tables set_identities set_reads tables identities].
    split; [reflexivity | split; [apply existsb_filter_negb | split]].
    + intros Habs. rewrite (filter_negb_all _ _ Habs).
      apply set_identities_same.
    + intros Hok'.
      rewrite (UnregisterTrackedID_accepted nb _ msg Hst Hok').
      fold tracked.
      cbn [set_tables set_identities set_reads tables identities users
           ephemerals].
      split; [reflexivity |].
      rewrite filter_negb_all; [reflexivity |].
      apply existsb_filter_negb.
Qed.

(** ** Tracked identities and their epoch records *)

Lemma checkTimestamp_passed (w w1 : World) (t : time.Time) :
  checkTimestamp t w = (None, w1) -> w1 = set_reads (S (reads w)) w.
Proof.
  unfold checkTimestamp, bind, time_Now, ret.
  destruct (5 * time.Second <? time.Sub (wall w (reads w)) t); congruence.
Qed.

Lemma covers_iff (t : Identity) (e : Ephemeral) :
  storage.DatabaseImpl.covers t e = true
  <-> Source e = IntermediaryId t /\ Offset e = Epoch t.
Proof.
  unfold storage.DatabaseImpl.covers.
  destruct (list_eq_dec Byte.byte_eq_dec (Source e) (IntermediaryId t)).
  - rewrite Z.eqb_eq. tauto.
  - split; [discriminate | tauto].
Qed.

(** What [AddLatestEphemeral] writes. *)
Lemma AddLatestEphemeral_eq (t : Identity) (w : World) :
  storage.DatabaseImpl.AddLatestEphemeral t w
  = (tt,
     set_tables
       (set_ephemerals
          (filter (fun e => negb (storage.DatabaseImpl.covers t e))
                  (ephemerals (tables w)) ++
           [storage.DatabaseImpl.epochRecord t])
          (tables w)) w).
Proof. reflexivity. Qed.

Lemma covers_epochRecord (t : Identity) :
  storage.DatabaseImpl.covers t (storage.DatabaseImpl.epochRecord t) = true.
Proof. apply covers_iff. split; reflexivity. Qed.

(** After the upsert exactly one record covers the identity. *)
Lemma upserted_once (t : Identity) (records : list Ephemeral) :
  filter (storage.DatabaseImpl.covers t)
         (filter (fun e => negb (storage.DatabaseImpl.covers t e)) records ++
          [storage.DatabaseImpl.epochRecord t])
  = [storage.DatabaseImpl.epochRecord t].
Proof.
  rewrite filter_app. cbn [filter]. rewrite covers_epochRecord.
  rewrite filter_none; [reflexivity |]. apply existsb_filter_negb.
Qed.

(** C7.  When a [RegisterTrackedID] request succeeds, the storage holds
    a TrackedIdentity for the intermediary identity, owned by the key of
    the request, at the epoch [HandleQuantization] gives for the time
    read from the clock during the call, with the size of the first
    address space of the network definition.  The call itself has
    written the epoch record of that identity: the record carries the
    ephemeral identity derived from the intermediary identity, that
    epoch and that size, and the expiry of its epoch window; it is in
    the storage when the call returns, it is the one record for that
    identity and epoch, and the records of other identities or epochs
    are as before. *)
Theorem RegisterTrackedID_tracks (nb : Impl) (w w' : World)
        (msg : pb.RegisterTrackedIdRequest.t)
        (Hst : Storage nb = storage.DatabaseImpl.impl)
        (Hok : RegisterTrackedID nb msg w = (Return None, w')) :
  let request := pb.RegisterTrackedIdRequest.Request msg in
  let iid := pb.TrackedIntermediaryIdRequest.TrackedIntermediaryID request in
  let pem := pb.TrackedIntermediaryIdRequest.TransmissionRsaPem request in
  let epoch := snd (ephemeral_HandleQuantization (wall w (S (reads w)))) in
  exists addressSpace others,
    inst_AddressSpace nb = addressSpace :: others /\
    let t := {| IntermediaryId := iid; Owner := Fingerprint pem;
                Epoch := epoch;
                AddressSpaceSize := ndf.Size addressSpace |} in
    let record :=
      {| EphemeralId := ephemeral_GetId iid epoch (ndf.Size addressSpace);
         Source := iid;
         Offset := epoch;
         Created := epoch * ephemeral_Period;
         Expiry := epoch * ephemeral_Period + ephemeral_Period |} in
    In t (identities (tables w')) /\
    In record (ephemerals (tables w')) /\
    filter (storage.DatabaseImpl.covers t) (ephemerals (tables w'))
    = [record] /\
    (forall e, storage.DatabaseImpl.covers t e = false ->
       (In e (ephemerals (tables w')) <-> In e (ephemerals (tables w)))).
Proof.
  intros request iid pem epoch.
  unfold RegisterTrackedID, bind in Hok. fold request iid pem in Hok.
  destruct (checkTimestamp _ w) as [[err |] w1] eqn:Hc; [discriminate |].
  apply checkTimestamp_passed in Hc. subst w1.
  destruct (verifyPermissioning _ _ _ _); [discriminate |].
  destruct (rsa_UnmarshalPublicKeyPEM pem) as [pub | err]; [| discriminate].
  destruct (notifications_VerifyIdentity _ _ _ _ _); [discriminate |].
  unfold time_Now in Hok. cbn [set_reads wall reads] in Hok.
  fold epoch in Hok.
  destruct (inst_AddressSpace nb) as [| addressSpace others];
    [discriminate |].
  exists addressSpace, others. split; [reflexivity |].
  rewrite Hst in Hok.
  cbn [storage.RegisterTrackedID storage.DatabaseImpl.impl] in Hok.
  unfold storage.DatabaseImpl.RegisterTrackedID, bind, get_tables,
    put_tables, ret in Hok.
  cbn [set_reads tables] in Hok.
  destruct (pg.select (Fingerprint pem) (users (tables w))) as [u |] eqn:Hu;
    [| discriminate].
  assert (Hid : Id u = Fingerprint pem).
  { unfold pg.select in Hu. apply find_some in Hu.
    now apply hasId_iff. }
  rewrite Hid in Hok. intros t record.
  fold t in Hok. rewrite AddLatestEphemeral_eq in Hok.
  change record with (storage.DatabaseImpl.epochRecord t).
  injection Hok as <-.
  cbn [set_tables set_ephemerals set_identities set_reads tables
       identities ephemerals].
  split; [| split; [| split]].
  - apply in_or_app. right. now left.
  - apply in_or_app. right. now left.
  - apply upserted_once.
  - intros e He. rewrite in_app_iff, filter_In, He. cbn [negb In].
    split; [| tauto].
    intros [[Hin _] | [<- | []]]; [exact Hin |].
    rewrite covers_epochRecord in He. discriminate.
Qed.


End Properties.


(* ================================================================== *)
(** * Further properties of the code *)

(** ** The storage backend ([databaseImpl.go]) *)

Lemma find_none_existsb {A : Type} (p : A -> bool) (l : list A) :
  find p l = None -> existsb p l = false.
Proof.
  induction l as [| a l IH]; simpl; [reflexivity |].
  destruct (p a); [discriminate | exact IH].
Qed.

Lemma hasId_other (k : string) (u : User) : k <> Id u -> pg.hasId k u = false.
Proof.
  intros Hk. destruct (pg.hasId k u) eqn:E; [| reflexivity].
  apply hasId_iff in E. congruence.
Qed.

Lemma select_delete_other (k uid : string) (t : list User) :
  k <> uid -> pg.select k (pg.delete uid t) = pg.select k t.
Proof.
  intros Hk. unfold pg.select, pg.delete.
  induction t as [| r t IH]; simpl; [reflexivity |].
  destruct (pg.hasId uid r) eqn:E; simpl.
  - rewrite IH. apply hasId_iff in E.
    rewrite hasId_other; [reflexivity | congruence].
  - destruct (pg.hasId k r); [reflexivity | exact IH].
Qed.

Lemma delete_NoDup (uid : string) (t : list User) :
  NoDup (map Id t) -> NoDup (map Id (pg.delete uid t)).
Proof.
  unfold pg.delete. induction t as [| r t IH]; simpl; intros Hnd; [exact Hnd |].
  inversion Hnd as [| ? ? Hnotin Hnd']; subst.
  destruct (negb (pg.hasId uid r)); simpl; [| auto].
  constructor; [| auto].
  intros Hin. apply Hnotin. apply in_map_iff in Hin.
  destruct Hin as [x [Hx Hin]]. apply filter_In in Hin.
  apply in_map_iff. exists x. tauto.
Qed.

(** Writing [b] over [a] under the same key is writing [b]. *)
Lemma upsert_upsert (a b : User) (t : list User) :
  Id a = Id b -> pg.upsert b (pg.upsert a t) = pg.upsert b t.
Proof.
  intros Hk. unfold pg.upsert. rewrite Hk.
  destruct (existsb (pg.hasId (Id b)) t) eqn:E.
  - assert (E' : existsb (pg.hasId (Id b))
                   (map (fun row => if pg.hasId (Id b) row
                                    then {| Id := Id row; Token := Token a |}
                                    else row) t) = true).
    { clear Hk. induction t as [| r t IH]; simpl in *; [discriminate |].
      destruct (pg.hasId (Id b) r) eqn:Er; simpl in *.
      - unfold pg.hasId in *. simpl. now rewrite Er.
      - rewrite Er. auto. }
    rewrite E'. rewrite map_map. apply map_ext. intros r.
    destruct (pg.hasId (Id b) r) eqn:Er.
    + unfold pg.hasId in *. simpl. now rewrite Er.
    + now rewrite Er.
  - assert (E' : existsb (pg.hasId (Id b)) (t ++ [a]) = true).
    { rewrite existsb_app. apply orb_true_iff. right. simpl.
      rewrite orb_false_r. now apply hasId_iff. }
    rewrite E', map_app. f_equal.
    + clear E'. induction t as [| r t IH]; simpl in *; [reflexivity |].
      destruct (pg.hasId (Id b) r); simpl in *; [discriminate |].
      now rewrite IH.
    + simpl. replace (pg.hasId (Id b) a) with true
        by (symmetry; now apply hasId_iff).
      rewrite Hk. now destruct b.
Qed.

(** What a nil from [UpsertUser] tells: the insert was made, and the
    read-back found the row of the key with the expected token. *)
Lemma UpsertUser_nil (user : User) (w w' : World) :
  storage.DatabaseImpl.UpsertUser user w = (None, w') ->
  w' = pg.with_users (pg.upsert user (users (tables w))) w /\
  storage.DatabaseImpl.GetUser (Id user) w'
  = inl {| Id := Id user; Token := Token user |}.
Proof.
  unfold storage.DatabaseImpl.UpsertUser, bind. intros Hok.
  destruct (pg.InsertOnConflictSetToken user w) as [[err |] w1] eqn:Hins;
    [discriminate |].
  destruct (pg.Select (Id user) w1) as [row | err] eqn:Hsel;
    [| discriminate].
  destruct (negb (String.eqb (Token user) (Token row))) eqn:Htok;
    [discriminate |].
  injection Hok as <-.
  unfold pg.InsertOnConflictSetToken in Hins. injection Hins as <-.
  split; [reflexivity |].
  unfold storage.DatabaseImpl.GetUser. rewrite Hsel. f_equal.
  apply negb_false_iff, String.eqb_eq in Htok.
  unfold pg.Select in Hsel.
  destruct (pg.select (Id user) _) as [found |] eqn:Hfind; [| discriminate].
  injection Hsel as <-.
  unfold pg.select in Hfind. apply find_some in Hfind.
  destruct Hfind as [_ Hid]. apply hasId_iff in Hid.
  destruct found as [i k]. cbn [Id Token] in *. now subst.
Qed.

(** X1.  When [UpsertUser] returns no error, [GetUser] on the key returns
    the user that was written, token included (the read-back of
    [UpsertUser] has checked it); [GetUser] on any other key answers as
    before, and nothing but the users table has changed. *)
Theorem UpsertUser_GetUser (user : User) (w w' : World)
        (Hok : storage.DatabaseImpl.UpsertUser user w = (None, w')) :
  storage.DatabaseImpl.GetUser (Id user) w'
  = inl {| Id := Id user; Token := Token user |} /\
  (forall k, k <> Id user ->
     storage.DatabaseImpl.GetUser k w' = storage.DatabaseImpl.GetUser k w) /\
  identities (tables w') = identities (tables w) /\
  ephemerals (tables w') = ephemerals (tables w) /\
  sent w' = sent w /\ reads w' = reads w /\ polls w' = polls w.
Proof.
  destruct (UpsertUser_nil user w w' Hok) as [-> Hget].
  split; [exact Hget |].
  split; [| repeat split].
  intros k Hk. unfold storage.DatabaseImpl.GetUser, pg.Select.
  cbn [pg.with_users set_tables set_users tables users].
  now rewrite select_upsert_other.
Qed.

(** X2.  The last write wins: after two [UpsertUser] calls under the same
    key the world is the one the second call alone would have produced;
    in particular writing the same user twice is writing it once. *)
Theorem UpsertUser_last_write_wins (a b : User) (w : World)
        (Hkey : Id a = Id b) :
  storage.DatabaseImpl.UpsertUser b (snd (storage.DatabaseImpl.UpsertUser a w))
  = storage.DatabaseImpl.UpsertUser b w.
Proof.
  rewrite !UpsertUser_ok. cbn [snd]. f_equal.
  unfold pg.with_users.
  cbn [set_tables set_users tables users identities ephemerals wall reads
       sent polls].
  now rewrite upsert_upsert.
Qed.

(** X3.  [UpsertUser] keeps the primary key of the users table, and it
    adds a row exactly when the key was not there: the number of rows is
    unchanged when [GetUser] found the key before, and grows by one when
    it did not. *)
Theorem UpsertUser_rows (user : User) (w : World)
        (Hkey : NoDup (map Id (users (tables w)))) :
  let w' := snd (storage.DatabaseImpl.UpsertUser user w) in
  NoDup (map Id (users (tables w'))) /\
  (forall u, storage.DatabaseImpl.GetUser (Id user) w = inl u ->
     List.length (users (tables w')) = List.length (users (tables w))) /\
  (forall err, storage.DatabaseImpl.GetUser (Id user) w = inr err ->
     List.length (users (tables w')) = S (List.length (users (tables w)))).
Proof.
  rewrite UpsertUser_ok.
  cbn [snd pg.with_users set_tables set_users tables users].
  split; [now apply upsert_NoDup |].
  unfold storage.DatabaseImpl.GetUser, pg.Select, pg.upsert.
  destruct (pg.select (Id user) (users (tables w))) as [row |] eqn:Hsel.
  - rewrite (select_exists _ _ _ Hsel).
    split; [intros _ _; apply length_map | discriminate].
  - rewrite (find_none_existsb _ _ Hsel).
    split; [discriminate |].
    intros _ _. rewrite length_app. simpl. lia.
Qed.

(** X4.  When [GetUser] finds the user, [DeleteUser] returns no error;
    afterwards [GetUser] on that key fails, [GetUser] on any other key
    answers as before, the primary key still holds if it held, and the
    other tables are untouched. *)
Theorem DeleteUser_found (uid : string) (u : User) (w : World)
        (Hu : storage.DatabaseImpl.GetUser uid w = inl u) :
  let (err, w') := storage.DatabaseImpl.DeleteUser uid w in
  err = None /\
  (exists gone, storage.DatabaseImpl.GetUser uid w' = inr gone) /\
  (forall k, k <> uid ->
     storage.DatabaseImpl.GetUser k w' = storage.DatabaseImpl.GetUser k w) /\
  (NoDup (map Id (users (tables w))) ->
   NoDup (map Id (users (tables w')))) /\
  identities (tables w') = identities (tables w) /\
  ephemerals (tables w') = ephemerals (tables w).
Proof.
  unfold storage.DatabaseImpl.GetUser, pg.Select in Hu.
  destruct (pg.select uid (users (tables w))) as [row |] eqn:Hsel;
    [| discriminate].
  unfold storage.DatabaseImpl.DeleteUser, bind, pg.Delete.
  rewrite (select_exists _ _ _ Hsel). cbn [ret].
  split; [reflexivity |].
  unfold storage.DatabaseImpl.GetUser, pg.Select.
  cbn [pg.with_users set_tables set_users tables users identities ephemerals].
  split; [rewrite select_deleted; eauto |].
  split; [intros k Hk; now rewrite select_delete_other |].
  split; [apply delete_NoDup | split; reflexivity].
Qed.

(** Deleting the key that was just upserted. *)
Lemma DeleteUser_after_upsert (user : User) (w : World) :
  let (err, w2) :=
    storage.DatabaseImpl.DeleteUser (Id user)
      (pg.with_users (pg.upsert user (users (tables w))) w) in
  err = None /\
  (exists gone, storage.DatabaseImpl.GetUser (Id user) w2 = inr gone) /\
  (forall absent, storage.DatabaseImpl.GetUser (Id user) w = inr absent ->
     tables w2 = tables w).
Proof.
  unfold storage.DatabaseImpl.DeleteUser, bind, pg.Delete.
  cbn [pg.with_users set_tables set_users tables users].
  pose proof (select_upsert user (users (tables w))) as Hsel.
  rewrite (select_exists _ _ _ Hsel). cbn [ret].
  split; [reflexivity |].
  unfold storage.DatabaseImpl.GetUser, pg.Select.
  cbn [pg.with_users set_tables set_users tables users identities ephemerals].
  split; [rewrite select_deleted; eauto |].
  intros absent Habs.
  destruct (pg.select (Id user) (users (tables w))) as [row |] eqn:Hnone;
    [discriminate |].
  apply find_none_existsb in Hnone.
  unfold pg.upsert, pg.delete. rewrite Hnone.
  rewrite filter_app, (filter_negb_all _ _ Hnone). cbn [filter].
  replace (pg.hasId (Id user) user) with true
    by (symmetry; now apply hasId_iff).
  cbn [negb]. rewrite app_nil_r. now destruct (tables w).
Qed.

(** X5.  Upserting a user whose key is not in the table and then deleting
    that key gives back the tables as they were. *)
Theorem UpsertUser_DeleteUser (user : User) (w : World) (err : error)
        (Habsent : storage.DatabaseImpl.GetUser (Id user) w = inr err) :
  let w1 := snd (storage.DatabaseImpl.UpsertUser user w) in
  let (err', w2) := storage.DatabaseImpl.DeleteUser (Id user) w1 in
  err' = None /\ tables w2 = tables w.
Proof.
  rewrite UpsertUser_ok. cbn [snd].
  pose proof (DeleteUser_after_upsert user w) as Hdel.
  destruct (storage.DatabaseImpl.DeleteUser (Id user)
              (pg.with_users (pg.upsert user (users (tables w))) w))
    as [err' w2].
  destruct Hdel as (He & _ & Hback). split; [exact He | eauto].
Qed.

(** ** The dispatch loop *)

Lemma string_app_assoc (a b c : string) : ((a ++ b) ++ c = a ++ (b ++ c))%string.
Proof. induction a as [| x a IH]; simpl; [reflexivity | now rewrite IH]. Qed.

Lemma occurs_after (sub pre s : string) :
  occurs sub s -> occurs sub (pre ++ s).
Proof.
  intros [p [q E]]. exists (pre ++ p)%string, q.
  now rewrite E, string_app_assoc.
Qed.

Lemma occurs_before (sub s post : string) :
  occurs sub s -> occurs sub (s ++ post).
Proof.
  intros [p [q E]]. exists p, (q ++ post)%string.
  now rewrite E, !string_app_assoc.
Qed.

Section Dispatch.
Context `{Libs}.

(** The provider never reports an error. *)
Definition reliable (app : firebase.FBSender) : Prop :=
  forall log message, snd (firebase.Send app log message) = None.

(** The notifications a batch gives rise to over the users table [t]: one
    for each identity that resolves to a User, in the order of the
    batch. *)
Definition pushes (t : list User) (UIDs : list bytes) : list Message :=
  flat_map
    (fun id => match pg.select (string_of_bytes id) t with
               | Some u => [notification (Token u)]
               | None => []
               end)
    UIDs.

(** What [sendNotification] does to the world. *)
Lemma sendNotification_eq (app : firebase.FBSender) (token : string)
      (w : World) :
  firebase.sendNotification app token w
  = (fst (firebase.Send app (sent w) (notification token)),
     match snd (firebase.Send app (sent w) (notification token)) with
     | Some err =>
         Some (errors.Wrapf err "Failed to send notification.  Response: %+v"
                 [fst (firebase.Send app (sent w) (notification token))])
     | None => None
     end,
     set_sent (sent w ++ [notification token]) w).
Proof.
  unfold firebase.sendNotification, bind, firebase.app_Send.
  fold (notification token).
  destruct (firebase.Send app (sent w) (notification token)) as [resp [err |]];
    reflexivity.
Qed.

Lemma set_sent_nil (w : World) : set_sent (sent w ++ []) w = w.
Proof. destruct w. unfold set_sent. cbn. now rewrite app_nil_r. Qed.

Lemma notifyAll_reliable (f : Fields) (UIDs : list bytes) (w : World) :
  Storage f = storage.DatabaseImpl.impl ->
  reliable (fcm f) ->
  notifyAll (StartNotifications f) firebase.NewFirebaseComm UIDs w
  = (None, set_sent (sent w ++ pushes (users (tables w)) UIDs) w).
Proof.
  intros Hst Hrel. revert w.
  induction UIDs as [| id rest IH]; intros w.
  - cbn [notifyAll pushes flat_map ret]. now rewrite set_sent_nil.
  - cbn [notifyAll]. unfold bind.
    cbn [notifyFunc StartNotifications fields].
    unfold notifyUser, bind. rewrite Hst.
    cbn [storage.GetUser storage.DatabaseImpl.impl
         firebase.SendNotification firebase.NewFirebaseComm].
    unfold storage.DatabaseImpl.GetUser, pg.Select.
    cbn [pushes flat_map]. fold (pushes (users (tables w)) rest).
    destruct (pg.select (string_of_bytes id) (users (tables w))) as [u |].
    + rewrite sendNotification_eq, Hrel. cbn [ret].
      rewrite IH.
      cbn [set_sent sent tables]. unfold set_sent.
      cbn [wall reads tables sent polls].
      now rewrite <- app_assoc.
    + apply IH.
Qed.

(** X6.  When the provider never reports an error, a batch ends without
    error and sends exactly one fixed notification for each identity that
    resolves to a User, in the order of the batch, to the token stored
    for it; identities without a User are skipped, and nothing else in
    the world changes. *)
Theorem notifyAll_sends (f : Fields) (UIDs : list bytes) (w : World)
        (Hst : Storage f = storage.DatabaseImpl.impl)
        (Hrel : reliable (fcm f)) :
  let (failed, w') :=
    notifyAll (StartNotifications f) firebase.NewFirebaseComm UIDs w in
  failed = None /\
  sent w' = (sent w ++ pushes (users (tables w)) UIDs)%list /\
  tables w' = tables w /\ reads w' = reads w /\ polls w' = polls w.
Proof.
  rewrite (notifyAll_reliable f UIDs w Hst Hrel). repeat split.
Qed.

(** X7.  The loop returns only for a reason: while the cancellation does
    not fire, the gateway answers every poll and the provider never
    reports an error, the loop is still running after any number of
    ticks, has sent nothing on [errChan], has polled once per tick and
    has left the tables alone. *)
Theorem RunNotificationLoop_keeps_running (f : Fields) (h : Host) (n : nat)
        (errChan : list error) (w : World)
        (Hst : Storage f = storage.DatabaseImpl.impl)
        (Hrel : reliable (fcm f))
        (Hgw : GetHost (Comms f) (gwId f) = Some h)
        (Hup : forall k, exists UIDs,
                 RequestNotifications (Comms f) h k = inl UIDs) :
  let '(exit, errChan', w') :=
    RunNotificationLoop (StartNotifications f) (repeat timeAfter n)
                        errChan w in
  exit = Waiting /\ errChan' = errChan /\
  polls w' = (polls w + n)%nat /\ tables w' = tables w.
Proof.
  revert w. induction n as [| n IH]; intros w.
  - cbn. repeat split. lia.
  - cbn [repeat RunNotificationLoop]. unfold bind.
    cbn [pollFunc StartNotifications fields].
    unfold pollForNotifications. rewrite Hgw.
    destruct (Hup (polls w)) as [UIDs ->].
    rewrite (notifyAll_reliable f UIDs _ Hst Hrel).
    match goal with
    | |- context [RunNotificationLoop _ _ _ ?w1] =>
        specialize (IH w1);
        destruct (RunNotificationLoop (StartNotifications f)
                    (repeat timeAfter n) errChan w1)
          as [[exit errChan'] w']
    end.
    cbn [set_sent set_polls polls tables] in IH.
    destruct IH as (-> & -> & Hp & Ht).
    repeat split; [lia | exact Ht].
Qed.

(** X8.  Whatever functions poll and notify, a run of the loop sends at
    most one error on [errChan], and only when it returns: the content
    of the channel is unchanged while the loop is running, and on return
    it is unchanged or longer by one error. *)
Theorem RunNotificationLoop_errChan (nb : Impl) (schedule : list Select)
        (errChan : list error) (w : World) :
  let '(exit, errChan', w') := RunNotificationLoop nb schedule errChan w in
  (exit = Waiting -> errChan' = errChan) /\
  (errChan' = errChan \/ exists err, errChan' = (errChan ++ [err])%list).
Proof.
  revert w. induction schedule as [| [|] schedule IH]; intros w;
    cbn [RunNotificationLoop]; unfold bind, ret.
  - auto.
  - split; [discriminate | auto].
  - destruct (pollFunc nb nb w) as [[UIDs | err] w1].
    + destruct (notifyAll nb firebase.NewFirebaseComm UIDs w1)
        as [[err |] w2].
      * split; [discriminate | eauto].
      * apply IH.
    + split; [discriminate | eauto].
Qed.

(** The world [w'] is [w] after some dispatching: users may have been
    removed, messages may have been sent to tokens stored in [w], polls
    may have been made; nothing else differs. *)
Definition dispatched (w w' : World) : Prop :=
  incl (users (tables w')) (users (tables w)) /\
  identities (tables w') = identities (tables w) /\
  ephemerals (tables w') = ephemerals (tables w) /\
  reads w' = reads w /\
  exists new,
    sent w' = (sent w ++ new)%list /\
    Forall (fun message =>
              exists u, In u (users (tables w)) /\
                        message = notification (Token u)) new.

Lemma dispatched_refl (w : World) : dispatched w w.
Proof.
  repeat split; try apply incl_refl.
  exists []. now rewrite app_nil_r.
Qed.

Lemma dispatched_trans (w1 w2 w3 : World) :
  dispatched w1 w2 -> dispatched w2 w3 -> dispatched w1 w3.
Proof.
  intros (Hu & Hi & He & Hr & new & Hs & Hn)
         (Hu' & Hi' & He' & Hr' & new' & Hs' & Hn').
  repeat split; try congruence.
  - eapply incl_tran; eassumption.
  - exists (new ++ new')%list. split.
    + now rewrite Hs', Hs, app_assoc.
    + apply Forall_app. split; [exact Hn |].
      eapply Forall_impl; [| exact Hn'].
      intros m [u [Hin ->]]. exists u. auto.
Qed.

Lemma notifyUser_dispatched (f : Fields) (uid : string) (w : World) :
  Storage f = storage.DatabaseImpl.impl ->
  dispatched w
    (snd (notifyUser (fcm f) uid firebase.NewFirebaseComm (Storage f) w)).
Proof.
  intros Hst. unfold notifyUser, bind. rewrite Hst.
  cbn [storage.GetUser storage.DatabaseImpl.impl
       firebase.SendNotification firebase.NewFirebaseComm
       storage.DeleteUser].
  unfold storage.DatabaseImpl.GetUser, pg.Select.
  destruct (pg.select uid (users (tables w))) as [u |] eqn:Hsel;
    [| apply dispatched_refl].
  assert (Hin : In u (users (tables w)))
    by (unfold pg.select in Hsel; now apply find_some in Hsel).
  assert (Hsent : dispatched w (set_sent (sent w ++ [notification (Token u)]) w)).
  { repeat split; try apply incl_refl.
    exists [notification (Token u)]. split; [reflexivity |].
    constructor; [eauto | constructor]. }
  rewrite sendNotification_eq.
  destruct (snd (firebase.Send (fcm f) (sent w) (notification (Token u))))
    as [err |]; [| exact Hsent].
  destruct (strings.Contains _ "403" || strings.Contains _ "404");
    [| exact Hsent].
  unfold storage.DatabaseImpl.DeleteUser, bind, pg.Delete.
  cbn [set_sent tables].
  rewrite (select_exists _ _ _ Hsel). cbn [ret snd].
  eapply dispatched_trans; [exact Hsent |].
  repeat split.
  - cbn [pg.with_users set_tables set_users set_sent tables users].
    unfold pg.delete. intros x Hx. apply filter_In in Hx. tauto.
  - exists []. cbn. now rewrite app_nil_r.
Qed.

Lemma notifyAll_dispatched (f : Fields) (UIDs : list bytes) (w : World) :
  Storage f = storage.DatabaseImpl.impl ->
  dispatched w
    (snd (notifyAll (StartNotifications f) firebase.NewFirebaseComm UIDs w)).
Proof.
  intros Hst. revert w. induction UIDs as [| id rest IH]; intros w.
  - apply dispatched_refl.
  - cbn [notifyAll]. unfold bind.
    cbn [notifyFunc StartNotifications fields].
    pose proof (notifyUser_dispatched f (string_of_bytes id) w Hst) as Hstep.
    destruct (notifyUser (fcm f) (string_of_bytes id)
                firebase.NewFirebaseComm (Storage f) w)
      as [[resp [err |]] w1]; cbn [snd] in *; [exact Hstep |].
    eapply dispatched_trans; [exact Hstep | apply IH].
Qed.

Lemma pollForNotifications_dispatched (f : Fields) (w : World) :
  dispatched w (snd (pollForNotifications f w)).
Proof.
  unfold pollForNotifications.
  destruct (GetHost (Comms f) (gwId f)); [| apply dispatched_refl].
  cbn [snd]. repeat split; try apply incl_refl.
  exists []. cbn. now rewrite app_nil_r.
Qed.

Lemma RunNotificationLoop_dispatched (f : Fields) (schedule : list Select)
      (errChan : list error) (w : World) :
  Storage f = storage.DatabaseImpl.impl ->
  dispatched w
    (snd (RunNotificationLoop (StartNotifications f) schedule errChan w)).
Proof.
  intros Hst. revert w. induction schedule as [| [|] schedule IH]; intros w;
    try apply dispatched_refl.
  cbn [RunNotificationLoop]. unfold bind.
  cbn [pollFunc StartNotifications fields].
  pose proof (pollForNotifications_dispatched f w) as Hpoll.
  destruct (pollForNotifications f w) as [[UIDs | err] w1]; cbn [snd] in *;
    [| exact Hpoll].
  pose proof (notifyAll_dispatched f UIDs w1 Hst) as Hbatch.
  destruct (notifyAll (StartNotifications f) firebase.NewFirebaseComm UIDs w1)
    as [[err |] w2]; cbn [snd] in *.
  - eapply dispatched_trans; eassumption.
  - eapply dispatched_trans; [exact Hpoll |].
    eapply dispatched_trans; [exact Hbatch | apply IH].
Qed.

(** X9.  Dispatch never registers anything: whatever the gateway and the
    provider answer and however long the loop runs, every User in the
    table afterwards was in it before, the tracked identities and the
    epoch records are untouched, and the clock is not read. *)
Theorem RunNotificationLoop_never_registers (f : Fields)
        (schedule : list Select) (errChan : list error) (w : World)
        (Hst : Storage f = storage.DatabaseImpl.impl) :
  let w' :=
    snd (RunNotificationLoop (StartNotifications f) schedule errChan w) in
  (forall u, In u (users (tables w')) -> In u (users (tables w))) /\
  identities (tables w') = identities (tables w) /\
  ephemerals (tables w') = ephemerals (tables w) /\
  reads w' = reads w.
Proof.
  intros w'.
  destruct (RunNotificationLoop_dispatched f schedule errChan w Hst)
    as (Hu & Hi & He & Hr & _).
  repeat split; auto.
Qed.

(** X10.  The loop pushes only to registered tokens: the messages handed
    to the provider before the run are still there in the same order,
    and each message the run adds is the fixed notification addressed to
    the token of a User that was in the table when the run began. *)
Theorem RunNotificationLoop_pushes_registered (f : Fields)
        (schedule : list Select) (errChan : list error) (w : World)
        (Hst : Storage f = storage.DatabaseImpl.impl) :
  let w' :=
    snd (RunNotificationLoop (StartNotifications f) schedule errChan w) in
  exists new,
    sent w' = (sent w ++ new)%list /\
    forall message, In message new ->
      exists u, In u (users (tables w)) /\
                message = {| Title := "xx Messenger";
                             Body := "You have a new message in the xx Messenger";
                             To := Token u |}.
Proof.
  intros w'.
  destruct (RunNotificationLoop_dispatched f schedule errChan w Hst)
    as (_ & _ & _ & _ & new & Hs & Hn).
  exists new. split; [exact Hs |].
  intros message Hin. rewrite Forall_forall in Hn. exact (Hn message Hin).
Qed.

(** X11.  The test for an invalid token sees through the wrapping of
    [sendNotification]: when the message of the error the provider
    itself returned contains 403 or 404, or the response text it returned
    with the error does, [notifyUser] deletes the User it had found and
    returns no error. *)
Theorem notifyUser_provider_status (f : Fields) (w : World) (uid : string)
        (u : User) (resp : string) (e : error)
        (Hst : Storage f = storage.DatabaseImpl.impl)
        (Hu : storage.GetUser (Storage f) uid w = inl u)
        (Hsend : firebase.Send (fcm f) (sent w) (notification (Token u))
                 = (resp, Some e))
        (Hstatus : invalidToken e \/ occurs "403" resp \/ occurs "404" resp) :
  notifyUser (fcm f) uid firebase.NewFirebaseComm (Storage f) w
  = (resp, None,
     pg.with_users (pg.delete uid (users (tables w)))
       (set_sent (sent w ++ [notification (Token u)]) w)).
Proof.
  set (err := errors.Wrapf e "Failed to send notification.  Response: %+v"
                           [resp]).
  set (w1 := set_sent (sent w ++ [notification (Token u)]) w).
  assert (Hs : firebase.SendNotification firebase.NewFirebaseComm (fcm f)
                 (Token u) w = (resp, Some err, w1)).
  { cbn [firebase.SendNotification firebase.NewFirebaseComm].
    now rewrite sendNotification_eq, Hsend. }
  rewrite (notifyUser_send_failed _ _ _ _ _ _ _ _ _ Hu Hs).
  assert (Hinv : invalidToken err).
  { unfold invalidToken, err. cbn [errors.Error].
    change (fmt.Sprintf "Failed to send notification.  Response: %+v" [resp])
      with ("Failed to send notification.  Response: " ++ (resp ++ ""))%string.
    destruct Hstatus as [[H3 | H4] | [H3 | H4]].
    - left. now apply occurs_after, occurs_after.
    - right. now apply occurs_after, occurs_after.
    - left. rewrite string_app_assoc.
      now apply occurs_after, occurs_before, occurs_before.
    - right. rewrite string_app_assoc.
      now apply occurs_after, occurs_before, occurs_before. }
  apply invalidToken_iff in Hinv. rewrite Hinv.
  rewrite Hst in *. cbn [storage.GetUser storage.DeleteUser
                         storage.DatabaseImpl.impl] in *.
  unfold storage.DatabaseImpl.GetUser, pg.Select in Hu.
  destruct (pg.select uid (users (tables w))) as [row |] eqn:Hsel;
    [| discriminate].
  unfold storage.DatabaseImpl.DeleteUser, bind, pg.Delete.
  cbn [w1 set_sent tables]. now rewrite (select_exists _ _ _ Hsel).
Qed.

(** X12.  A poll that cannot be made or fails ends the loop.  When the
    gateway is not among the known hosts, the first tick sends the
    wrapped error on [errChan] and returns without contacting the gateway
    and without changing anything; when the gateway answers with an
    error, that error is wrapped twice and the poll is counted. *)
Theorem RunNotificationLoop_poll_failure (f : Fields)
        (schedule : list Select) (errChan : list error) (w : World) :
  (GetHost (Comms f) (gwId f) = None ->
   RunNotificationLoop (StartNotifications f) (timeAfter :: schedule)
                       errChan w
   = (Returned,
      (errChan ++
       [errors.Wrap (errors.New "Could not find gateway host")
                    "Failed to poll gateway for users to notify"])%list,
      w)) /\
  (forall h err,
     GetHost (Comms f) (gwId f) = Some h ->
     RequestNotifications (Comms f) h (polls w) = inr err ->
     RunNotificationLoop (StartNotifications f) (timeAfter :: schedule)
                         errChan w
     = (Returned,
        (errChan ++
         [errors.Wrap
            (errors.Wrap err "Failed to retrieve notifications from gateway")
            "Failed to poll gateway for users to notify"])%list,
        set_polls (S (polls w)) w)).
Proof.
  split.
  - intros Hgw. cbn [RunNotificationLoop]. unfold bind.
    cbn [pollFunc StartNotifications fields].
    unfold pollForNotifications. now rewrite Hgw.
  - intros h err Hgw Hrpc. cbn [RunNotificationLoop]. unfold bind.
    cbn [pollFunc StartNotifications fields].
    unfold pollForNotifications. now rewrite Hgw, Hrpc.
Qed.

End Dispatch.

(** ** The authenticated client calls

    [RegisterForNotifications] and [UnregisterForNotifications], the two
    calls of the main file that [NewImplementation] hands to the comms
    server. *)

Module connect.
Section connect.
Context `{Libs}.

(** [connect.Auth] as the two calls read it: [Sender_GetId] stands for
    [auth.Sender.GetId()]. *)
Record Auth : Type := {
  IsAuthenticated : bool;
  Sender_GetId : ID;
}.

End connect.
End connect.

Section ClientCalls.
Context `{Libs}.

(** The [String] method of [id.ID], of [xx_network/primitives/id]. *)
Variable ID_String : ID -> string.

(** RegisterForNotifications is called by the client, and adds a user
    registration to our database. *)
Definition RegisterForNotifications (nb : Impl) (clientToken : bytes)
           (auth : connect.Auth) : M (option error) :=
  if negb (connect.IsAuthenticated auth)
  then ret (Some (errors.New
         "Cannot register for notifications: client is not authenticated"))
  else if String.eqb (string_of_bytes clientToken) ""
  then ret (Some (errors.New
         "Cannot register for notifications with empty client token"))
  else
    let u := {| Id := ID_String (connect.Sender_GetId auth);
                Token := string_of_bytes clientToken |} in
    err <- storage.UpsertUser (Storage nb) u ;;
    match err with
    | Some err =>
        ret (Some (errors.Wrap err
                     "Failed to register user with notifications"))
    | None => ret None
    end.

(** UnregisterForNotifications is called by the client, and removes a
    user registration from our database. *)
Definition UnregisterForNotifications (nb : Impl) (auth : connect.Auth)
  : M (option error) :=
  if negb (connect.IsAuthenticated auth)
  then ret (Some (errors.New
         "Cannot unregister for notifications: client is not authenticated"))
  else
    err <- storage.DeleteUser (Storage nb)
             (ID_String (connect.Sender_GetId auth)) ;;
    match err with
    | Some err =>
        ret (Some (errors.Wrap err
                     "Failed to unregister user with notifications"))
    | None => ret None
    end.

Lemma string_of_bytes_empty (b : bytes) :
  String.eqb (string_of_bytes b) "" = true <-> b = [].
Proof.
  rewrite String.eqb_eq. unfold string_of_bytes. destruct b; simpl.
  - tauto.
  - split; discriminate.
Qed.

(** X13.  [RegisterForNotifications] turns away, before it touches the
    storage, a caller that is not authenticated and, if the caller is
    authenticated, an empty client token; the world is unchanged.  When
    the storage fails on an accepted call, its error is returned
    wrapped. *)
Theorem RegisterForNotifications_rejects (nb : Impl) (clientToken : bytes)
        (auth : connect.Auth) (w : World) :
  (connect.IsAuthenticated auth = false ->
   RegisterForNotifications nb clientToken auth w
   = (Some (errors.New
        "Cannot register for notifications: client is not authenticated"),
      w)) /\
  (connect.IsAuthenticated auth = true -> clientToken = [] ->
   RegisterForNotifications nb clientToken auth w
   = (Some (errors.New
        "Cannot register for notifications with empty client token"),
      w)) /\
  (connect.IsAuthenticated auth = true -> clientToken <> [] ->
   forall err w',
     storage.UpsertUser (Storage nb)
       {| Id := ID_String (connect.Sender_GetId auth);
          Token := string_of_bytes clientToken |} w = (Some err, w') ->
     RegisterForNotifications nb clientToken auth w
     = (Some (errors.Wrap err "Failed to register user with notifications"),
        w')).
Proof.
  unfold RegisterForNotifications.
  split; [| split].
  - now intros ->.
  - intros -> ->. reflexivity.
  - intros -> Hne err w' Hup. cbn [negb].
    destruct (String.eqb (string_of_bytes clientToken) "") eqn:E.
    + apply string_of_bytes_empty in E. contradiction.
    + unfold bind. now rewrite Hup.
Qed.

(** X14.  When [RegisterForNotifications] returns no error, the caller
    was authenticated, the client token was not empty, and the token is
    stored under the id of the sender: [GetUser] on that id returns it,
    the other users are as before, and the next time the id is in a
    batch [notifyUser] hands the provider the fixed notification
    addressed to that token. *)
Theorem RegisterForNotifications_registers (f : Fields) (clientToken : bytes)
        (auth : connect.Auth) (w w' : World)
        (Hst : Storage f = storage.DatabaseImpl.impl)
        (Hok : RegisterForNotifications (StartNotifications f) clientToken
                 auth w = (None, w')) :
  let uid := ID_String (connect.Sender_GetId auth) in
  let token := string_of_bytes clientToken in
  connect.IsAuthenticated auth = true /\
  clientToken <> [] /\
  storage.GetUser (Storage f) uid w' = inl {| Id := uid; Token := token |} /\
  (forall k, k <> uid ->
     storage.GetUser (Storage f) k w' = storage.GetUser (Storage f) k w) /\
  forall resp,
    firebase.Send (fcm f) (sent w) (notification token) = (resp, None) ->
    notifyUser (fcm f) uid firebase.NewFirebaseComm (Storage f) w'
    = (resp, None, set_sent (sent w ++ [notification token]) w').
Proof.
  intros uid token. unfold RegisterForNotifications in Hok.
  destruct (connect.IsAuthenticated auth); [| discriminate].
  cbn [negb] in Hok.
  destruct (String.eqb (string_of_bytes clientToken) "") eqn:E;
    [discriminate |].
  split; [reflexivity |].
  split.
  { intros ->. discriminate. }
  unfold bind in Hok. cbn [StartNotifications fields] in Hok.
  rewrite Hst in *.
  cbn [storage.UpsertUser storage.GetUser storage.DatabaseImpl.impl] in *.
  fold uid token in Hok. set (u := {| Id := uid; Token := token |}) in *.
  destruct (storage.DatabaseImpl.UpsertUser u w) as [[err |] w1] eqn:Hup;
    [discriminate |].
  injection Hok as <-.
  destruct (UpsertUser_nil u w w1 Hup) as [-> Hg].
  split; [exact Hg |].
  split.
  - intros k Hk. unfold storage.DatabaseImpl.GetUser, pg.Select.
    cbn [pg.with_users set_tables set_users tables users].
    now rewrite (select_upsert_other u).
  - intros resp Hsend. unfold notifyUser, bind.
    cbn [storage.GetUser storage.DatabaseImpl.impl
         firebase.SendNotification firebase.NewFirebaseComm].
    change (Id u) with uid in Hg. rewrite Hg. cbn [Token u].
    rewrite sendNotification_eq.
    cbn [pg.with_users set_tables sent]. now rewrite Hsend.
Qed.

(** X15.  [UnregisterForNotifications] turns away a caller that is not
    authenticated without touching the storage.  After a registration,
    the same sender unregisters without error: [GetUser] on its id then
    fails, and if the id was not registered before the registration, the
    tables are back as they were. *)
Theorem UnregisterForNotifications_unregisters (f : Fields)
        (clientToken : bytes) (auth : connect.Auth) (w : World)
        (Hst : Storage f = storage.DatabaseImpl.impl) :
  let nb := StartNotifications f in
  let uid := ID_String (connect.Sender_GetId auth) in
  (connect.IsAuthenticated auth = false ->
   UnregisterForNotifications nb auth w
   = (Some (errors.New
        "Cannot unregister for notifications: client is not authenticated"),
      w)) /\
  (connect.IsAuthenticated auth = true -> clientToken <> [] ->
   let w1 := snd (RegisterForNotifications nb clientToken auth w) in
   let (err, w2) := UnregisterForNotifications nb auth w1 in
   err = None /\
   (exists gone, storage.GetUser (Storage f) uid w2 = inr gone) /\
   ((exists absent, storage.GetUser (Storage f) uid w = inr absent) ->
    tables w2 = tables w)).
Proof.
  intros nb uid. split.
  - intros Hauth. unfold UnregisterForNotifications. now rewrite Hauth.
  - intros Hauth Htoken.
    unfold RegisterForNotifications, UnregisterForNotifications.
    rewrite Hauth. cbn [negb].
    destruct (String.eqb (string_of_bytes clientToken) "") eqn:E.
    { apply string_of_bytes_empty in E. contradiction. }
    unfold bind. cbn [nb StartNotifications fields]. rewrite Hst.
    cbn [storage.UpsertUser storage.DeleteUser storage.GetUser
         storage.DatabaseImpl.impl].
    fold uid. set (u := {| Id := uid; Token := string_of_bytes clientToken |}).
    rewrite UpsertUser_ok. cbn [ret snd].
    assert (Hdel :
      let (err, w2) :=
        storage.DatabaseImpl.DeleteUser uid
          (pg.with_users (pg.upsert u (users (tables w))) w) in
      err = None /\
      (exists gone, storage.DatabaseImpl.GetUser uid w2 = inr gone) /\
      (forall absent, storage.DatabaseImpl.GetUser uid w = inr absent ->
         tables w2 = tables w))
      by exact (DeleteUser_after_upsert u w).
    destruct (storage.DatabaseImpl.DeleteUser uid
                (pg.with_users (pg.upsert u (users (tables w))) w))
      as [err w2].
    destruct Hdel as (-> & Hgone & Hback). cbn [ret].
    split; [reflexivity | split; [exact Hgone |]].
    intros [absent Habs]. exact (Hback absent Habs).
Qed.

End ClientCalls.

(** ** The signed handlers, beyond the claims *)

Section Handlers.
Context `{Libs}.

Lemma stale_dec (w : World) (ts : Z) : {stale w ts} + {~ stale w ts}.
Proof. unfold stale. apply Z_gt_dec. Qed.

Lemma RegisterTrackedID_storage_result (iid pem : bytes) (epoch size : Z)
      (w : World) :
  fst (storage.DatabaseImpl.RegisterTrackedID iid pem epoch size w) = None \/
  fst (storage.DatabaseImpl.RegisterTrackedID iid pem epoch size w)
  = Some (errors.WithMessage pg.ErrNoRows
            "Cannot register tracked ID to unregistered user").
Proof.
  unfold storage.DatabaseImpl.RegisterTrackedID, bind, get_tables.
  destruct (pg.select (Fingerprint pem) (users (tables w))); [| now right].
  left. unfold put_tables, ret.
  match goal with
  | |- context [storage.DatabaseImpl.AddLatestEphemeral ?t ?w0] =>
      destruct (storage.DatabaseImpl.AddLatestEphemeral t w0)
  end.
  reflexivity.
Qed.

(** The storage never answers with an error built from
    [timestampError]. *)
Definition neverStale (s : storage.Storage) : Prop :=
  forall (w : World) (args : list string),
    (forall token app pem,
       fst (storage.RegisterToken s token app pem w)
       <> Some (errors.Errorf timestampError args)) /\
    (forall iid pem epoch size,
       fst (storage.RegisterTrackedID s iid pem epoch size w)
       <> Some (errors.Errorf timestampError args)) /\
    (forall token pem,
       fst (storage.UnregisterToken s token pem w)
       <> Some (errors.Errorf timestampError args)) /\
    (forall iid pem,
       fst (storage.UnregisterTrackedIDs s iid pem w)
       <> Some (errors.Errorf timestampError args)).

Lemma DatabaseImpl_neverStale : neverStale storage.DatabaseImpl.impl.
Proof.
  intros w args. cbn [storage.RegisterToken storage.RegisterTrackedID
                      storage.UnregisterToken storage.UnregisterTrackedIDs
                      storage.DatabaseImpl.impl].
  split; [| split; [| split]].
  - intros token app pem. unfold storage.DatabaseImpl.RegisterToken.
    rewrite UpsertUser_ok. discriminate.
  - intros iid pem epoch size.
    destruct (RegisterTrackedID_storage_result iid pem epoch size w)
      as [-> | ->]; discriminate.
  - intros token pem. discriminate.
  - intros iid pem. discriminate.
Qed.

(** X16.  The four handlers return the stale-request error only for a
    stale request: provided the storage itself never answers with that
    error, it comes back exactly when more than five seconds lie between
    the reading of the clock and the timestamp.  A request stamped
    exactly five seconds back, or stamped in the future, is never turned
    away as stale. *)
Theorem stale_error_only_when_stale (nb : Impl) (w : World)
        (Hst : neverStale (Storage nb)) :
  (forall msg,
     let ts := pb.RegisterTokenRequest.RequestTimestamp msg in
     fst (RegisterToken nb msg w) = Some (staleRequest w ts) <-> stale w ts) /\
  (forall msg,
     let ts := pb.TrackedIntermediaryIdRequest.RequestTimestamp
                 (pb.RegisterTrackedIdRequest.Request msg) in
     fst (RegisterTrackedID nb msg w) = Return (Some (staleRequest w ts))
     <-> stale w ts) /\
  (forall msg,
     let ts := pb.UnregisterTokenRequest.RequestTimestamp msg in
     fst (UnregisterToken nb msg w) = Some (staleRequest w ts) <-> stale w ts) /\
  (forall msg,
     let ts := pb.TrackedIntermediaryIdRequest.RequestTimestamp msg in
     fst (UnregisterTrackedID nb msg w) = Some (staleRequest w ts)
     <-> stale w ts).
Proof.
  split; [| split; [| split]]; intros msg ts;
    (split;
     [ intros Hret; destruct (stale_dec w ts) as [Hs | Hfresh];
       [exact Hs | exfalso]
     | intros Hs ]).
  - unfold RegisterToken, bind in Hret. fold ts in Hret.
    rewrite (checkTimestamp_fresh _ _ Hfresh) in Hret.
    unfold verifyPermissioning in Hret.
    destruct (GetHost (Comms nb) id_Permissioning); [| discriminate].
    destruct (registration_VerifyWithTimestamp _ _ _ _); [discriminate |].
    destruct (rsa_UnmarshalPublicKeyPEM _); [| discriminate].
    destruct (notifications_VerifyToken _ _ _ _ _ _); [discriminate |].
    exact (proj1 (Hst _ _) _ _ _ Hret).
  - unfold RegisterToken, bind. fold ts.
    now rewrite (checkTimestamp_stale _ _ Hs).
  - unfold RegisterTrackedID, bind in Hret. fold ts in Hret.
    rewrite (checkTimestamp_fresh _ _ Hfresh) in Hret.
    unfold verifyPermissioning in Hret.
    destruct (GetHost (Comms nb) id_Permissioning); [| discriminate].
    destruct (registration_VerifyWithTimestamp _ _ _ _); [discriminate |].
    destruct (rsa_UnmarshalPublicKeyPEM _); [| discriminate].
    destruct (notifications_VerifyIdentity _ _ _ _ _); [discriminate |].
    unfold time_Now in Hret.
    destruct (inst_AddressSpace nb); [discriminate |].
    match type of Hret with
    | context [storage.RegisterTrackedID ?s ?i ?p ?e ?z ?w0] =>
        pose proof (proj1 (proj2 (Hst w0 [time_String (time.Unix 0 ts);
                                          time_String (wall w (S (reads w)))]))
                          i p e z) as Hno;
        destruct (storage.RegisterTrackedID s i p e z w0) as [r w2]
    end.
    cbn [fst ret] in *. injection Hret as ->. now apply Hno.
  - unfold RegisterTrackedID, bind. fold ts.
    now rewrite (checkTimestamp_stale _ _ Hs).
  - unfold UnregisterToken, bind in Hret. fold ts in Hret.
    rewrite (checkTimestamp_fresh _ _ Hfresh) in Hret.
    destruct (rsa_UnmarshalPublicKeyPEM _); [| discriminate].
    destruct (notifications_VerifyToken _ _ _ _ _ _); [discriminate |].
    exact (proj1 (proj2 (proj2 (Hst _ _))) _ _ Hret).
  - unfold UnregisterToken, bind. fold ts.
    now rewrite (checkTimestamp_stale _ _ Hs).
  - unfold UnregisterTrackedID, bind in Hret. fold ts in Hret.
    rewrite (checkTimestamp_fresh _ _ Hfresh) in Hret.
    destruct (rsa_UnmarshalPublicKeyPEM _); [| discriminate].
    destruct (notifications_VerifyIdentity _ _ _ _ _); [discriminate |].
    exact (proj2 (proj2 (proj2 (Hst _ _))) _ _ Hret).
  - unfold UnregisterTrackedID, bind. fold ts.
    now rewrite (checkTimestamp_stale _ _ Hs).
Qed.

(** X17.  [RegisterTrackedID] guards the storage like [RegisterToken]
    does.  For a fresh request and any storage: an unknown permissioning
    host, a registrar signature that does not verify, a key that does
    not parse and an identity signature that does not verify each end
    the call with their error after one reading of the clock; and when
    all of them pass but the network definition lists no address space,
    the call panics after a second reading.  In none of these cases is a
    table changed. *)
Theorem RegisterTrackedID_guards (nb : Impl) (w : World)
        (msg : pb.RegisterTrackedIdRequest.t)
        (Hfresh : ~ stale w (pb.TrackedIntermediaryIdRequest.RequestTimestamp
                               (pb.RegisterTrackedIdRequest.Request msg))) :
  let request := pb.RegisterTrackedIdRequest.Request msg in
  let pem := pb.TrackedIntermediaryIdRequest.TransmissionRsaPem request in
  let w1 := set_reads (S (reads w)) w in
  let permissioned :=
    verifyPermissioning nb
      (pb.RegisterTrackedIdRequest.RegistrationTimestamp msg) pem
      (pb.RegisterTrackedIdRequest.TransmissionRsaRegistrarSig msg) in
  let signed pub :=
    notifications_VerifyIdentity pub
      (pb.TrackedIntermediaryIdRequest.TrackedIntermediaryID request)
      (time.Unix 0 (pb.TrackedIntermediaryIdRequest.RequestTimestamp request))
      RegisterTrackedIDTag
      (pb.TrackedIntermediaryIdRequest.Signature request) in
  (GetHost (Comms nb) id_Permissioning = None ->
   RegisterTrackedID nb msg w
   = (Return (Some (errors.New
        "Could not find permissioning host to verify client signature")),
      w1)) /\
  (forall permHost err,
     GetHost (Comms nb) id_Permissioning = Some permHost ->
     registration_VerifyWithTimestamp (GetPubKey permHost)
       (pb.RegisterTrackedIdRequest.RegistrationTimestamp msg)
       (string_of_bytes pem)
       (pb.RegisterTrackedIdRequest.TransmissionRsaRegistrarSig msg)
     = Some err ->
     RegisterTrackedID nb msg w
     = (Return (Some (errors.WithMessage err
                        "Failed to verify permissioning signature")), w1)) /\
  (permissioned = None ->
   (forall err,
      rsa_UnmarshalPublicKeyPEM pem = inr err ->
      RegisterTrackedID nb msg w
      = (Return (Some (errors.WithMessage err
                         "Failed to unmarshal public key")), w1)) /\
   (forall pub err,
      rsa_UnmarshalPublicKeyPEM pem = inl pub -> signed pub = Some err ->
      RegisterTrackedID nb msg w
      = (Return (Some (errors.WithMessage err
                         "Failed to verify identity signature")), w1)) /\
   (forall pub,
      rsa_UnmarshalPublicKeyPEM pem = inl pub -> signed pub = None ->
      inst_AddressSpace nb = [] ->
      RegisterTrackedID nb msg w
      = (Panic "runtime error: index out of range [0] with length 0",
         set_reads (S (S (reads w))) w))) /\
  tables w1 = tables w /\
  tables (set_reads (S (S (reads w))) w) = tables w.
Proof.
  intros request pem w1 permissioned signed.
  pose proof (checkTimestamp_fresh _ _ Hfresh) as Hc.
  split; [| split; [| split; [| split; reflexivity]]].
  - intros Hhost. unfold RegisterTrackedID, bind, verifyPermissioning.
    rewrite Hc. now rewrite Hhost.
  - intros permHost err Hhost Hsig.
    unfold RegisterTrackedID, bind, verifyPermissioning.
    rewrite Hc. fold request pem. now rewrite Hhost, Hsig.
  - intros Hperm. unfold permissioned in Hperm. split; [| split].
    + intros err Hpub. unfold RegisterTrackedID, bind.
      rewrite Hc. fold request pem. now rewrite Hperm, Hpub.
    + intros pub err Hpub Hsig. unfold signed in Hsig.
      unfold RegisterTrackedID, bind.
      rewrite Hc. fold request pem. now rewrite Hperm, Hpub, Hsig.
    + intros pub Hpub Hsig Hspace. unfold signed in Hsig.
      unfold RegisterTrackedID, bind.
      rewrite Hc. fold request pem. rewrite Hperm, Hpub, Hsig.
      unfold time_Now. now rewrite Hspace.
Qed.

(** X18.  The two unregistering handlers are self-authenticated: they
    never consult the comms or the network definition, so their outcome
    is the same under any two configurations that share the storage, a
    missing permissioning host included.  For a fresh request, a key
    that does not parse and a signature that does not verify end the
    call with their error before the storage is called. *)
Theorem unregister_self_authenticated (nb nb' : Impl) (w : World)
        (Hsame : Storage nb = Storage nb') :
  (forall msg, UnregisterToken nb msg w = UnregisterToken nb' msg w) /\
  (forall msg, UnregisterTrackedID nb msg w = UnregisterTrackedID nb' msg w) /\
  (forall msg,
     ~ stale w (pb.UnregisterTokenRequest.RequestTimestamp msg) ->
     let pem := pb.UnregisterTokenRequest.TransmissionRsaPem msg in
     let w1 := set_reads (S (reads w)) w in
     (forall err,
        rsa_UnmarshalPublicKeyPEM pem = inr err ->
        UnregisterToken nb msg w
        = (Some (errors.WithMessage err "Failed to unmarshal public key"),
           w1)) /\
     (forall pub err,
        rsa_UnmarshalPublicKeyPEM pem = inl pub ->
        notifications_VerifyToken pub
          (pb.UnregisterTokenRequest.Token msg)
          (pb.UnregisterTokenRequest.App msg)
          (time.Unix 0 (pb.UnregisterTokenRequest.RequestTimestamp msg))
          UnregisterTokenTag (pb.UnregisterTokenRequest.TokenSignature msg)
        = Some err ->
        UnregisterToken nb msg w
        = (Some (errors.WithMessage err "Failed to verify token signature"),
           w1))) /\
  (forall msg,
     ~ stale w (pb.TrackedIntermediaryIdRequest.RequestTimestamp msg) ->
     let pem := pb.TrackedIntermediaryIdRequest.TransmissionRsaPem msg in
     let w1 := set_reads (S (reads w)) w in
     (forall err,
        rsa_UnmarshalPublicKeyPEM pem = inr err ->
        UnregisterTrackedID nb msg w
        = (Some (errors.WithMessage err "Failed to unmarshal public key"),
           w1)) /\
     (forall pub err,
        rsa_UnmarshalPublicKeyPEM pem = inl pub ->
        notifications_VerifyIdentity pub
          (pb.TrackedIntermediaryIdRequest.TrackedIntermediaryID msg)
          (time.Unix 0 (pb.TrackedIntermediaryIdRequest.RequestTimestamp msg))
          UnregisterTrackedIDTag
          (pb.TrackedIntermediaryIdRequest.Signature msg) = Some err ->
        UnregisterTrackedID nb msg w
        = (Some (errors.WithMessage err "Failed to verify identity signature"),
           w1))).
Proof.
  split; [| split; [| split]].
  - intros msg. unfold UnregisterToken. now rewrite Hsame.
  - intros msg. unfold UnregisterTrackedID. now rewrite Hsame.
  - intros msg Hfresh pem w1.
    pose proof (checkTimestamp_fresh _ _ Hfresh) as Hc. split.
    + intros err Hpub. unfold UnregisterToken, bind.
      fold pem. now rewrite Hc, Hpub.
    + intros pub err Hpub Hsig. unfold UnregisterToken, bind.
      fold pem. now rewrite Hc, Hpub, Hsig.
  - intros msg Hfresh pem w1.
    pose proof (checkTimestamp_fresh _ _ Hfresh) as Hc. split.
    + intros err Hpub. unfold UnregisterTrackedID, bind.
      fold pem. now rewrite Hc, Hpub.
    + intros pub err Hpub Hsig. unfold UnregisterTrackedID, bind.
      fold pem. now rewrite Hc, Hpub, Hsig.
Qed.

End Handlers.
(* ================================================================== *)
(** * Scenarios

    Each theorem above that rests on assumptions is run here on the test
    doubles, where the assumptions hold by computation. *)

Import testing.

Lemma stale_old : stale (boot noTables) old.
Proof. unfold stale. vm_compute. reflexivity. Defined.

Lemma fresh_recent (d : Database) (n : nat) :
  (n <= 2)%nat -> ~ stale (set_reads n (boot d)) recent.
Proof.
  intros Hn. unfold stale, recent, time.Unix, time.Second.
  cbn [wall reads set_reads boot]. unfold time.Second. lia.
Defined.

(** A request stamped at the epoch reaches a server whose clock reads
    100 s: all four handlers answer with the stale-request error. *)
Lemma stale_request_rejected_witness :
  stale (boot noTables) old /\
  RegisterToken nb (registerToken "tokA" old) (boot noTables)
  = (Some (staleRequest (boot noTables) old), set_reads 2 (boot noTables)) /\
  RegisterTrackedID nb (registerTrackedId old) (boot noTables)
  = (Return (Some (staleRequest (boot noTables) old)),
     set_reads 2 (boot noTables)) /\
  UnregisterToken nb (unregisterToken old) (boot noTables)
  = (Some (staleRequest (boot noTables) old), set_reads 2 (boot noTables)) /\
  UnregisterTrackedID nb (trackedId old) (boot noTables)
  = (Some (staleRequest (boot noTables) old), set_reads 2 (boot noTables)).
Proof.
  pose proof (stale_request_rejected nb (boot noTables) old stale_old)
    as (H1 & H2 & H3 & H4 & _).
  split; [exact stale_old |].
  split; [apply H1; reflexivity |].
  split; [apply H2; reflexivity |].
  split; [apply H3; reflexivity | apply H4; reflexivity].
Defined.

Lemma acceptable_recent (token : string) (d : Database) (n : nat) :
  (n <= 2)%nat ->
  acceptable nb (set_reads n (boot d)) (registerToken token recent).
Proof.
  intros Hn. split; [now apply fresh_recent |].
  split; [reflexivity |]. exists pem. split; reflexivity.
Defined.

(** A fresh, well-signed registration is accepted and the key reads back
    with the token. *)
Lemma RegisterToken_verifies_witness :
  Storage nb = storage.DatabaseImpl.impl /\
  ~ stale (boot noTables) recent /\
  RegisterToken nb (registerToken "tokA" recent) (boot noTables)
  = (None, registered pem "tokA" (boot noTables)) /\
  storage.GetUser (Storage nb) "key" (registered pem "tokA" (boot noTables))
  = inl {| Id := "key"; Token := "tokA" |}.
Proof.
  pose proof (RegisterToken_verifies nb (boot noTables)
                (registerToken "tokA" recent) eq_refl
                (fresh_recent noTables 0 (Nat.le_0_l 2)))
    as (_ & _ & Hsig & _).
  destruct (Hsig eq_refl) as (_ & _ & Hok).
  destruct (Hok pem eq_refl eq_refl) as (Hret & _ & Hget & _).
  split; [reflexivity |].
  split; [exact (fresh_recent noTables 0 (Nat.le_0_l 2)) |].
  split; [exact Hret | exact Hget].
Defined.

(** The key registers tokA and then tokB: one row, holding tokB. *)
Lemma RegisterToken_roundtrip_witness :
  let w := boot noTables in
  let msgA := registerToken "tokA" recent in
  let msgB := registerToken "tokB" recent in
  NoDup (map Id (users (tables w))) /\
  acceptable nb w msgA /\
  acceptable nb (snd (RegisterToken nb msgA w)) msgB /\
  let (errA, wA) := RegisterToken nb msgA w in
  let (errB, wB) := RegisterToken nb msgB wA in
  errA = None /\
  storage.GetUser (Storage nb) "key" wA = inl {| Id := "key"; Token := "tokA" |} /\
  errB = None /\
  storage.GetUser (Storage nb) "key" wB = inl {| Id := "key"; Token := "tokB" |} /\
  filter (pg.hasId "key") (users (tables wB)) = [{| Id := "key"; Token := "tokB" |}].
Proof.
  intros w msgA msgB.
  assert (HA : acceptable nb w msgA)
    by exact (acceptable_recent "tokA" noTables 0 (Nat.le_0_l 2)).
  assert (HB : acceptable nb (snd (RegisterToken nb msgA w)) msgB)
    by exact (acceptable_recent "tokB" (oneUser "tokA") 1 (Nat.le_succ_diag_r 1)).
  split; [constructor |]. split; [exact HA |]. split; [exact HB |].
  exact (RegisterToken_roundtrip nb w msgA msgB eq_refl (NoDup_nil _)
           eq_refl HA HB).
Defined.

(** The provider answers 404 for the stored token tokB: the user is
    deleted and no error is returned. *)
Lemma notifyUser_provider_error_witness :
  let f := fieldsWith provider in
  let w := boot (oneUser "tokB") in
  let err := errors.Wrapf
               (errors.New
                  "http error status: 404; reason: app instance has been unregistered")
               "Failed to send notification.  Response: %+v" [""] in
  storage.GetUser (Storage f) "key" w = inl {| Id := "key"; Token := "tokB" |} /\
  firebase.Send (fcm f) (sent w) (notification "tokB")
  = ("", Some (errors.New
                 "http error status: 404; reason: app instance has been unregistered")) /\
  invalidToken err /\
  notifyUser (fcm f) "key" firebase.NewFirebaseComm (Storage f) w
  = ("", None,
     pg.with_users [] (set_sent [notification "tokB"] w)).
Proof.
  intros f w err.
  assert (Hinv : invalidToken err) by (apply invalidToken_iff; reflexivity).
  pose proof (notifyUser_provider_error f w "key"
                {| Id := "key"; Token := "tokB" |} "" _
                eq_refl eq_refl eq_refl) as (Hdel & _).
  destruct (Hdel Hinv) as (Hret & _).
  split; [reflexivity |]. split; [reflexivity |]. split; [exact Hinv |].
  exact Hret.
Defined.

(** Nobody is registered: the identity is skipped and the world is as
    before. *)
Lemma notifyUser_unregistered_witness :
  let f := fieldsWith provider in
  let w := boot noTables in
  storage.GetUser (Storage f) (string_of_bytes pem) w
  = inr (errors.Errorf "Failed to retrieve user with ID %s: %+v"
                       ["key"; "pg: no rows in result set"]) /\
  notifyUser (fcm f) (string_of_bytes pem) firebase.NewFirebaseComm
             (Storage f) w = ("", None, w) /\
  notifyAll nb firebase.NewFirebaseComm [pem; pem] w
  = notifyAll nb firebase.NewFirebaseComm [pem] w.
Proof.
  intros f w.
  pose proof (notifyUser_unregistered f firebase.NewFirebaseComm w pem _
                eq_refl) as (Hret & Hnext).
  split; [reflexivity |]. split; [exact Hret | exact (Hnext [pem])].
Defined.

Lemma unregisterable_recent (d : Database) (n : nat) :
  (n <= 2)%nat -> unregisterable (set_reads n (boot d)) (unregisterToken recent).
Proof.
  intros Hn. split; [now apply fresh_recent |].
  exists pem. split; reflexivity.
Defined.

(** The registered key unregisters its token twice in a row: both calls
    succeed and the second finds nothing to delete. *)
Lemma unregister_idempotent_witness :
  let w := boot (oneUser "tokA") in
  let msg := unregisterToken recent in
  Storage nb = storage.DatabaseImpl.impl /\
  unregisterable w msg /\
  unregisterable (snd (UnregisterToken nb msg w)) msg /\
  let (err1, w1) := UnregisterToken nb msg w in
  let (err2, w2) := UnregisterToken nb msg w1 in
  err1 = None /\ err2 = None /\ tables w1 = noTables /\ tables w2 = tables w1.
Proof.
  intros w msg.
  assert (H1 : unregisterable w msg)
    by exact (unregisterable_recent (oneUser "tokA") 0 (Nat.le_0_l 2)).
  assert (H2 : unregisterable (snd (UnregisterToken nb msg w)) msg)
    by exact (unregisterable_recent noTables 1 (Nat.le_succ_diag_r 1)).
  split; [reflexivity |]. split; [exact H1 |]. split; [exact H2 |].
  pose proof (proj1 (unregister_idempotent nb w eq_refl) msg H1) as T.
  cbv zeta in T.
  destruct (UnregisterToken nb msg w) as [err1 w1] eqn:E1.
  destruct T as (He1 & _ & _ & Hagain).
  specialize (Hagain H2).
  assert (Ht : tables w1 = noTables)
    by (apply (f_equal snd) in E1; cbn [snd] in E1; rewrite <- E1;
        reflexivity).
  destruct (UnregisterToken nb msg w1) as [err2 w2].
  destruct Hagain as (He2 & Hsame).
  split; [exact He1 |]. split; [exact He2 |]. split; [exact Ht | exact Hsame].
Defined.

(** The registered key asks to track an identity: the identity and its
    epoch record are stored at once. *)
Lemma RegisterTrackedID_tracks_witness :
  let w := boot (oneUser "tokA") in
  let msg := registerTrackedId recent in
  let t := {| IntermediaryId := iid; Owner := "key"; Epoch := 0;
              AddressSpaceSize := 16 |} in
  let record := {| EphemeralId := 0; Source := iid; Offset := 0;
                   Created := 0; Expiry := 24 * time.Hour |} in
  Storage nb = storage.DatabaseImpl.impl /\
  fst (RegisterTrackedID nb msg w) = Return None /\
  In t (identities (tables (snd (RegisterTrackedID nb msg w)))) /\
  In record (ephemerals (tables (snd (RegisterTrackedID nb msg w)))) /\
  filter (storage.DatabaseImpl.covers t)
         (ephemerals (tables (snd (RegisterTrackedID nb msg w))))
  = [record].
Proof.
  intros w msg t record.
  destruct (RegisterTrackedID_tracks nb w (snd (RegisterTrackedID nb msg w))
              msg eq_refl eq_refl)
    as (addressSpace & others & Hspace & Hid & Hrec & Hone & _).
  injection Hspace as <- <-.
  split; [reflexivity |]. split; [reflexivity |].
  split; [exact Hid |]. split; [exact Hrec | exact Hone].
Defined.



(** The first poll returns an empty batch and the second fails: the loop
    reports the failure and returns; whatever would follow is not run.
    With a cancellation in place of the second timer the loop returns
    silently. *)
Lemma RunNotificationLoop_exits_witness :
  let w := boot noTables in
  let failure :=
    errors.Wrap
      (errors.Wrap (errors.New "context deadline exceeded")
                   "Failed to retrieve notifications from gateway")
      "Failed to poll gateway for users to notify" in
  RunNotificationLoop nb [timeAfter] [] w = (Waiting, [], set_polls 1 w) /\
  pollFunc nb nb (set_polls 2 w)
  = (inr (errors.Wrap (errors.New "context deadline exceeded")
                      "Failed to retrieve notifications from gateway"),
     set_polls 3 w) /\
  RunNotificationLoop nb [timeAfter; killChan; timeAfter] [] w
  = (Returned, [], set_polls 1 w) /\
  RunNotificationLoop nb [timeAfter; timeAfter; timeAfter; timeAfter] [] w
  = (Returned, [failure], set_polls 3 w).
Proof.
  intros w failure.
  split; [reflexivity |]. split; [reflexivity |].
  split.
  - exact (proj1 (RunNotificationLoop_exits nb [timeAfter] [timeAfter] [] []
                    w (set_polls 1 w) eq_refl)).
  - exact (proj2 (RunNotificationLoop_exits nb [timeAfter; timeAfter]
                    [timeAfter] [] [] w (set_polls 2 w) eq_refl)
                 _ _ eq_refl).
Defined.

(** The provider answers 404 and the storage cannot delete: the storage
    error comes back wrapped. *)
Lemma notifyUser_invalid_token_witness :
  let w := boot (oneUser "tokB") in
  let fc := firebase.NewFirebaseComm in
  let err := errors.Wrapf
               (errors.New
                  "http error status: 404; reason: app instance has been unregistered")
               "Failed to send notification.  Response: %+v" [""] in
  let w1 := set_sent [notification "tokB"] w in
  storage.GetUser readOnly "key" w = inl {| Id := "key"; Token := "tokB" |} /\
  firebase.SendNotification fc provider "tokB" w = ("", Some err, w1) /\
  invalidToken err /\
  storage.DeleteUser readOnly "key" w1
  = (Some (errors.New "pg: connection refused"), w1) /\
  notifyUser provider "key" fc readOnly w
  = ("", Some (errors.Wrapf (errors.New "pg: connection refused")
                 "Failed to remove user registration for uid: %+v" ["key"]),
     w1).
Proof.
  intros w fc err w1.
  assert (Hinv : invalidToken err) by (apply invalidToken_iff; reflexivity).
  pose proof (notifyUser_invalid_token provider "key" fc readOnly w w1
                {| Id := "key"; Token := "tokB" |} "" err eq_refl eq_refl)
    as (Hdel & _).
  destruct (Hdel Hinv) as (Hfail & _).
  split; [reflexivity |]. split; [reflexivity |]. split; [exact Hinv |].
  split; [reflexivity |]. exact (Hfail _ _ eq_refl).
Defined.

(** Two records, one expired at the reading of 100 s and one not: the
    pass keeps the second. *)
Example deleterPass_scenario :
  let gone := {| EphemeralId := 1; Source := iid; Offset := 0;
                 Created := 0; Expiry := 99 * time.Second |} in
  let kept := {| EphemeralId := 2; Source := iid; Offset := 1;
                 Created := 50 * time.Second; Expiry := 100 * time.Second |} in
  ephemerals (tables (snd (deleterPass
    (boot {| users := []; identities := []; ephemerals := [gone; kept] |}))))
  = [kept].
Proof. reflexivity. Qed.

(** ** Scenarios for the further properties *)

(** A provider that accepts every message. *)
Definition accepting : firebase.FBSender :=
  {| firebase.Send := fun _ _ => ("projects/xx/messages/1", None) |}.

(** A gateway that reports the key [pem] at every poll. *)
Definition steady : NotificationComms :=
  {| GetHost := fun _ => Some {| GetPubKey := tt |};
     RequestNotifications := fun _ _ => inl [pem] |}.

Definition steadyFields : Fields :=
  {| Comms := steady;
     Storage := storage.DatabaseImpl.impl;
     fcm := accepting;
     gwId := 1%nat;
     inst_AddressSpace := [] |}.

(** The id of a sender, printed in decimal. *)
Definition decimal (n : nat) : string := NilZero.string_of_uint (Nat.to_uint n).

Definition sender : connect.Auth :=
  {| connect.IsAuthenticated := true; connect.Sender_GetId := 7%nat |}.

(** tokB written over tokA is tokB. *)
Lemma UpsertUser_last_write_wins_witness :
  storage.DatabaseImpl.UpsertUser {| Id := "key"; Token := "tokB" |}
    (snd (storage.DatabaseImpl.UpsertUser {| Id := "key"; Token := "tokA" |}
            (boot noTables)))
  = (None, boot (oneUser "tokB")).
Proof.
  rewrite (UpsertUser_last_write_wins {| Id := "key"; Token := "tokA" |}
             {| Id := "key"; Token := "tokB" |} (boot noTables) eq_refl).
  reflexivity.
Defined.

(** A second key adds a row, the first key does not. *)
Lemma UpsertUser_rows_witness :
  NoDup (map Id (users (oneUser "tokA"))) /\
  List.length (users (tables (snd (storage.DatabaseImpl.UpsertUser
     {| Id := "other"; Token := "tokC" |} (boot (oneUser "tokA")))))) = 2%nat /\
  List.length (users (tables (snd (storage.DatabaseImpl.UpsertUser
     {| Id := "key"; Token := "tokC" |} (boot (oneUser "tokA")))))) = 1%nat.
Proof.
  assert (Hk : NoDup (map Id (users (oneUser "tokA"))))
    by (repeat constructor; simpl; tauto).
  split; [exact Hk |]. split.
  - exact (proj2 (proj2 (UpsertUser_rows {| Id := "other"; Token := "tokC" |}
                           (boot (oneUser "tokA")) Hk)) _ eq_refl).
  - exact (proj1 (proj2 (UpsertUser_rows {| Id := "key"; Token := "tokC" |}
                           (boot (oneUser "tokA")) Hk)) _ eq_refl).
Defined.

(** The one user is deleted. *)
Lemma DeleteUser_found_witness :
  storage.DatabaseImpl.GetUser "key" (boot (oneUser "tokA"))
  = inl {| Id := "key"; Token := "tokA" |} /\
  let (err, w') := storage.DatabaseImpl.DeleteUser "key" (boot (oneUser "tokA")) in
  err = None /\
  exists gone, storage.DatabaseImpl.GetUser "key" w' = inr gone.
Proof.
  split; [reflexivity |].
  pose proof (DeleteUser_found "key" _ (boot (oneUser "tokA")) eq_refl) as T.
  destruct (storage.DatabaseImpl.DeleteUser "key" (boot (oneUser "tokA")))
    as [err w'].
  destruct T as (He & Hgone & _). split; [exact He | exact Hgone].
Defined.

(** A user is added to the empty table and removed again. *)
Lemma UpsertUser_DeleteUser_witness :
  (exists err, storage.DatabaseImpl.GetUser "key" (boot noTables) = inr err) /\
  let w1 := snd (storage.DatabaseImpl.UpsertUser
                   {| Id := "key"; Token := "tokA" |} (boot noTables)) in
  let (err', w2) := storage.DatabaseImpl.DeleteUser "key" w1 in
  err' = None /\ tables w2 = noTables.
Proof.
  split; [eexists; reflexivity |].
  exact (UpsertUser_DeleteUser {| Id := "key"; Token := "tokA" |}
           (boot noTables) _ eq_refl).
Defined.

Lemma accepting_reliable : reliable accepting.
Proof. intros log message. reflexivity. Defined.

(** A batch naming the registered key twice and sends two
    notifications to its token. *)
Lemma notifyAll_sends_witness :
  reliable (fcm steadyFields) /\
  let (failed, w') :=
    notifyAll (StartNotifications steadyFields) firebase.NewFirebaseComm
              [pem; iid; pem] (boot (oneUser "tokA")) in
  failed = None /\
  sent w' = [notification "tokA"; notification "tokA"].
Proof.
  split; [exact accepting_reliable |].
  pose proof (notifyAll_sends steadyFields [pem; iid; pem]
                (boot (oneUser "tokA")) eq_refl accepting_reliable) as T.
  destruct (notifyAll (StartNotifications steadyFields)
              firebase.NewFirebaseComm [pem; iid; pem]
              (boot (oneUser "tokA"))) as [failed w'].
  destruct T as (Hf & Hs & _). split; [exact Hf | exact Hs].
Defined.

(** Three ticks with a steady gateway and an accepting provider: the
    loop is still running and has polled three times. *)
Lemma RunNotificationLoop_keeps_running_witness :
  reliable (fcm steadyFields) /\
  GetHost (Comms steadyFields) (gwId steadyFields)
  = Some {| GetPubKey := tt |} /\
  let '(exit, errChan', w') :=
    RunNotificationLoop (StartNotifications steadyFields)
      [timeAfter; timeAfter; timeAfter] [] (boot (oneUser "tokA")) in
  exit = Waiting /\ errChan' = [] /\ polls w' = 3%nat /\
  tables w' = oneUser "tokA".
Proof.
  split; [exact accepting_reliable |]. split; [reflexivity |].
  exact (RunNotificationLoop_keeps_running steadyFields
           {| GetPubKey := tt |} 3 [] (boot (oneUser "tokA")) eq_refl
           accepting_reliable eq_refl (fun k => ex_intro _ [pem] eq_refl)).
Defined.

(** The provider answers 404 for tokB during a run: the table can only
    have lost users, and the only message went to tokB. *)
Lemma RunNotificationLoop_never_registers_witness :
  Storage (fieldsWith provider) = storage.DatabaseImpl.impl /\
  forall u,
    In u (users (tables (snd (RunNotificationLoop nb
            [timeAfter; timeAfter; timeAfter] [] (boot (oneUser "tokB")))))) ->
    u = {| Id := "key"; Token := "tokB" |}.
Proof.
  split; [reflexivity |]. intros u Hin.
  destruct (proj1 (RunNotificationLoop_never_registers (fieldsWith provider)
                     [timeAfter; timeAfter; timeAfter] []
                     (boot (oneUser "tokB")) eq_refl) u Hin) as [<- | []].
  reflexivity.
Defined.

Lemma RunNotificationLoop_pushes_registered_witness :
  Storage (fieldsWith provider) = storage.DatabaseImpl.impl /\
  forall message,
    In message (sent (snd (RunNotificationLoop nb
            [timeAfter; timeAfter; timeAfter] [] (boot (oneUser "tokB"))))) ->
    To message = "tokB".
Proof.
  split; [reflexivity |]. intros message Hin.
  destruct (RunNotificationLoop_pushes_registered (fieldsWith provider)
              [timeAfter; timeAfter; timeAfter] []
              (boot (oneUser "tokB")) eq_refl) as (new & Hs & Hnew).
  unfold nb in Hin. rewrite Hs in Hin. cbn [boot sent app] in Hin.
  destruct (Hnew message Hin) as (u & [<- | []] & ->). reflexivity.
Defined.

(** The provider's own message says 404. *)
Lemma notifyUser_provider_status_witness :
  let f := fieldsWith provider in
  let w := boot (oneUser "tokB") in
  invalidToken (errors.New
     "http error status: 404; reason: app instance has been unregistered") /\
  notifyUser (fcm f) "key" firebase.NewFirebaseComm (Storage f) w
  = ("", None, pg.with_users [] (set_sent [notification "tokB"] w)).
Proof.
  intros f w.
  assert (Hinv : invalidToken (errors.New
     "http error status: 404; reason: app instance has been unregistered"))
    by (apply invalidToken_iff; reflexivity).
  split; [exact Hinv |].
  exact (notifyUser_provider_status f w "key"
           {| Id := "key"; Token := "tokB" |} "" _ eq_refl eq_refl eq_refl
           (or_introl Hinv)).
Defined.

(** A user is written to the empty table and read back. *)
Lemma UpsertUser_GetUser_witness :
  storage.DatabaseImpl.UpsertUser {| Id := "key"; Token := "tokA" |}
    (boot noTables) = (None, boot (oneUser "tokA")) /\
  storage.DatabaseImpl.GetUser "key" (boot (oneUser "tokA"))
  = inl {| Id := "key"; Token := "tokA" |}.
Proof.
  split; [reflexivity |].
  exact (proj1 (UpsertUser_GetUser {| Id := "key"; Token := "tokA" |}
                  (boot noTables) (boot (oneUser "tokA")) eq_refl)).
Defined.

(** Sender 7 registers the token of [pem] and is notified. *)
Lemma RegisterForNotifications_registers_witness :
  let w' := boot {| users := [{| Id := "7"; Token := "key" |}];
                    identities := []; ephemerals := [] |} in
  RegisterForNotifications decimal (StartNotifications steadyFields)
                           pem sender (boot noTables) = (None, w') /\
  storage.GetUser (Storage steadyFields) "7" w'
  = inl {| Id := "7"; Token := "key" |} /\
  notifyUser (fcm steadyFields) "7" firebase.NewFirebaseComm
             (Storage steadyFields) w'
  = ("projects/xx/messages/1", None, set_sent [notification "key"] w').
Proof.
  intros w'.
  destruct (@RegisterForNotifications_registers libs decimal steadyFields
              pem sender (boot noTables) w' eq_refl eq_refl)
    as (_ & _ & Hg & _ & Hn).
  split; [reflexivity |]. split; [exact Hg |]. exact (Hn _ eq_refl).
Defined.

(** Sender 7 registers and unregisters: the tables are empty again. *)
Lemma UnregisterForNotifications_unregisters_witness :
  Storage steadyFields = storage.DatabaseImpl.impl /\
  let nb := StartNotifications steadyFields in
  let w1 := snd (RegisterForNotifications decimal nb pem sender
                   (boot noTables)) in
  let (err, w2) := UnregisterForNotifications decimal nb sender w1 in
  err = None /\ tables w2 = noTables.
Proof.
  split; [reflexivity |].
  assert (Hne : pem <> []) by discriminate.
  pose proof (proj2 (UnregisterForNotifications_unregisters decimal
                       steadyFields pem sender (boot noTables) eq_refl)
                eq_refl Hne) as T.
  cbv zeta in *.
  destruct (UnregisterForNotifications _ _ _ _) as [err w2].
  destruct T as (He & _ & Hback).
  split; [exact He |]. apply Hback. eexists. reflexivity.
Defined.

(** A request stamped an hour ahead of the clock is not stale. *)
Lemma stale_error_only_when_stale_witness :
  neverStale (Storage nb) /\
  ~ stale (boot noTables) (3700 * time.Second) /\
  fst (UnregisterToken nb (unregisterToken (3700 * time.Second))
                       (boot noTables))
  <> Some (staleRequest (boot noTables) (3700 * time.Second)).
Proof.
  assert (Hf : ~ stale (boot noTables) (3700 * time.Second))
    by (unfold stale; vm_compute; discriminate).
  split; [exact DatabaseImpl_neverStale |]. split; [exact Hf |].
  intros Hret. apply Hf.
  exact (proj1 (proj1 (proj2 (proj2 (stale_error_only_when_stale nb
                  (boot noTables) DatabaseImpl_neverStale)))
                  (unregisterToken (3700 * time.Second))) Hret).
Defined.

(** Every check passes but the network definition has no address space:
    the call panics and the tables are untouched. *)
Lemma RegisterTrackedID_guards_witness :
  let nb0 := StartNotifications steadyFields in
  ~ stale (boot (oneUser "tokA")) recent /\
  inst_AddressSpace nb0 = [] /\
  RegisterTrackedID nb0 (registerTrackedId recent) (boot (oneUser "tokA"))
  = (Panic "runtime error: index out of range [0] with length 0",
     set_reads 2 (boot (oneUser "tokA"))).
Proof.
  intros nb0.
  pose proof (fresh_recent (oneUser "tokA") 0 (Nat.le_0_l 2)) as Hf.
  split; [exact Hf |]. split; [reflexivity |].
  pose proof (RegisterTrackedID_guards nb0 (boot (oneUser "tokA"))
                (registerTrackedId recent) Hf) as (_ & _ & Hchecks & _).
  exact (proj2 (proj2 (Hchecks eq_refl)) pem eq_refl eq_refl eq_refl).
Defined.

(** The handler answers the same with and without a permissioning
    host. *)
Lemma unregister_self_authenticated_witness :
  let nohost :=
    StartNotifications
      {| Comms := {| GetHost := fun _ => None;
                     RequestNotifications := fun _ _ => inl [] |};
         Storage := storage.DatabaseImpl.impl;
         fcm := provider;
         gwId := 1%nat;
         inst_AddressSpace := [] |} in
  Storage nb = Storage nohost /\
  UnregisterToken nohost (unregisterToken recent) (boot (oneUser "tokA"))
  = (None, set_reads 1 (boot noTables)).
Proof.
  intros nohost. split; [reflexivity |].
  rewrite <- (proj1 (unregister_self_authenticated nb nohost
                       (boot (oneUser "tokA")) eq_refl)
                    (unregisterToken recent)).
  reflexivity.
Defined.

(* ================================================================== *)
(** * The map backend of the node database

    The last part of the main source file holds the map implementation
    of a node database (package [database]): a map from registration
    codes to node records behind a mutex. *)

From Stdlib Require Import Permutation.

Module database.

(** [NodeInformation], with the fields the functions use; [Id] is a byte
    slice that may be [nil]. *)
Record NodeInformation : Type := {
  Code : string;
  Id : option bytes;
  ServerAddress : string;
  GatewayAddress : string;
  NodeCertificate : string;
  GatewayCertificate : string;
}.

(** A [map[string]*NodeInformation] as the list of its entries, one for
    each key.  Each code owns its record: [InsertNodeRegCode] allocates a
    new one for it and no function stores a pointer under a second code,
    so the entries hold the records themselves. *)
Definition nodes : Type := list (string * NodeInformation).

Definition hasCode (code : string) (entry : string * NodeInformation) : bool :=
  String.eqb (fst entry) code.

(** [n[code]]: the record under [code], or [nil]. *)
Definition lookup (code : string) (n : nodes) : option NodeInformation :=
  option_map snd (find (hasCode code) n).

(** [n[code] = info]: the record under [code] is replaced, or a new
    entry is added. *)
Definition store (code : string) (info : NodeInformation) (n : nodes)
  : nodes :=
  if existsb (hasCode code) n
  then map (fun entry => if hasCode code entry then (fst entry, info)
                         else entry) n
  else (n ++ [(code, info)])%list.

(** [MapImpl]: the mutex (held or not) and the map. *)
Record MapImpl : Type := {
  mut : bool;
  node : nodes;
}.

(** How a call on the map ends. *)
Inductive result (A : Type) : Type :=
| Done (a : A) (m : MapImpl)   (* it returned *)
| Blocked                      (* it waits for the mutex *)
| Fatal (reason : string).     (* the runtime stopped the program *)
Arguments Done {A} a m.
Arguments Blocked {A}.
Arguments Fatal {A} reason.

Definition D (A : Type) : Type := MapImpl -> result A.

Definition dret {A : Type} (a : A) : D A := fun m => Done a m.

Definition dbind {A B : Type} (c : D A) (k : A -> D B) : D B :=
  fun m =>
    match c m with
    | Done a m' => k a m'
    | Blocked => Blocked
    | Fatal reason => Fatal reason
    end.

Notation "c >> k" := (dbind c (fun _ => k))
  (at level 62, right associativity).

(** [m.mut.Lock()]. *)
Definition Lock : D unit :=
  fun m => if mut m then Blocked
           else Done tt {| mut := true; node := node m |}.

(** [m.mut.Unlock()]. *)
Definition Unlock : D unit :=
  fun m => if mut m then Done tt {| mut := false; node := node m |}
           else Fatal "sync: unlock of unlocked mutex".

Definition get_node : D nodes :=
  fun m => Done (node m) m.

Definition put_node (n : nodes) : D unit :=
  fun m => Done tt {| mut := mut m; node := n |}.

(** If Node registration code is valid, add Node information *)
Definition InsertNode (id : option bytes)
           (code serverCert serverAddress gatewayAddress gatewayCert : string)
  : D (option error) :=
  Lock >>
  dbind get_node (fun n =>
  match lookup code n with
  | Some info =>
      (* the record is updated in place, through the pointer *)
      put_node (store code {| Code := Code info;
                              Id := id;
                              ServerAddress := serverAddress;
                              GatewayAddress := gatewayAddress;
                              NodeCertificate := serverCert;
                              GatewayCertificate := gatewayCert |} n) >>
      Unlock >>
      dret None
  | None =>
      Unlock >>
      dret (Some (errors.Errorf "unable to register node %s" [code]))
  end).

(** Insert Node registration code into the database *)
Definition InsertNodeRegCode (code : string) : D (option error) :=
  Lock >>
  dbind get_node (fun n =>
  (* Enforce unique registration code *)
  match lookup code n with
  | Some _ =>
      Unlock >>
      dret (Some (errors.Errorf "node registration code %s already exists"
                                [code]))
  | None =>
      put_node (store code {| Code := code;
                              Id := None;
                              ServerAddress := "";
                              GatewayAddress := "";
                              NodeCertificate := "";
                              GatewayCertificate := "" |} n) >>
      Unlock >>
      dret None
  end).

(** [counter += 1] on an [int] of 64 bits. *)
Definition incr (counter : Z) : Z :=
  let c := counter + 1 in
  if c <? 2 ^ 63 then c else c - 2 ^ 64.

(** Count the number of Nodes currently registered *)
Definition CountRegisteredNodes : D (Z * option error) :=
  Lock >>
  dbind get_node (fun n =>
  let counter :=
    fold_left (fun counter entry =>
                 match Id (snd entry) with
                 | Some _ => incr counter
                 | None => counter
                 end) n 0%Z in
  Unlock >>
  dret (counter, None)).

(** Get Node information for the given Node registration code *)
Definition GetNode (code : string) : D (option NodeInformation * option error) :=
  Lock >>
  dbind get_node (fun n =>
  match lookup code n with
  | None =>
      Unlock >>
      dret (None, Some (errors.Errorf "unable to get node %s" [code]))
  | Some info => Unlock >> dret (Some info, None)
  end).

End database.

(** ** Properties of the node database *)

Section NodeDatabase.
Import database.

(** The node under the entry has an id. *)
Definition hasNodeId (entry : string * NodeInformation) : bool :=
  match Id (snd entry) with
  | Some _ => true
  | None => false
  end.

(** The number of entries whose node has an id. *)
Definition registeredNodes (n : nodes) : nat :=
  List.length (filter hasNodeId n).

(** The keys of the map are distinct. *)
Definition distinctCodes (n : nodes) : Prop := NoDup (map fst n).

Lemma hasCode_iff (code : string) (entry : string * NodeInformation) :
  hasCode code entry = true <-> fst entry = code.
Proof. unfold hasCode. apply String.eqb_eq. Qed.

Lemma lookup_None (code : string) (n : nodes) :
  lookup code n = None <-> existsb (hasCode code) n = false.
Proof.
  unfold lookup. split.
  - intros Hl. apply find_none_existsb.
    destruct (find (hasCode code) n); [discriminate | reflexivity].
  - intros He. now rewrite (existsb_find_none _ _ He).
Qed.

Lemma lookup_Some (code : string) (n : nodes) (info : NodeInformation) :
  lookup code n = Some info -> existsb (hasCode code) n = true.
Proof.
  intros Hl. destruct (existsb (hasCode code) n) eqn:E; [reflexivity |].
  apply lookup_None in E. congruence.
Qed.

Lemma lookup_store (code : string) (info : NodeInformation) (n : nodes) :
  lookup code (store code info n) = Some info.
Proof.
  unfold lookup, store. destruct (existsb (hasCode code) n) eqn:E.
  - induction n as [| e n IH]; simpl in *; [discriminate |].
    destruct (hasCode code e) eqn:He; simpl.
    + unfold hasCode in *. simpl. now rewrite He.
    + rewrite He. auto.
  - induction n as [| e n IH]; simpl in *.
    + unfold hasCode. simpl. now rewrite String.eqb_refl.
    + destruct (hasCode code e); simpl in *; [discriminate | auto].
Qed.

Lemma lookup_store_other (code code' : string) (info : NodeInformation)
      (n : nodes) :
  code' <> code -> lookup code' (store code info n) = lookup code' n.
Proof.
  intros Hne. unfold lookup, store.
  destruct (existsb (hasCode code) n).
  - induction n as [| e n IH]; simpl; [reflexivity |].
    destruct (hasCode code e) eqn:He.
    + apply hasCode_iff in He.
      assert (Hc : hasCode code' e = false).
      { destruct (hasCode code' e) eqn:E; [| reflexivity].
        apply hasCode_iff in E. congruence. }
      unfold hasCode at 1. simpl. fold (hasCode code' e).
      rewrite Hc. exact IH.
    + destruct (hasCode code' e); [reflexivity | exact IH].
  - induction n as [| e n IH]; simpl.
    + unfold hasCode. simpl.
      destruct (String.eqb_spec code code'); [congruence | reflexivity].
    + destruct (hasCode code' e); [reflexivity | exact IH].
Qed.

Lemma store_codes (code : string) (info : NodeInformation) (n : nodes) :
  map fst (store code info n)
  = if existsb (hasCode code) n then map fst n
    else (map fst n ++ [code])%list.
Proof.
  unfold store. destruct (existsb (hasCode code) n).
  - rewrite map_map. apply map_ext. intros e. now destruct (hasCode code e).
  - now rewrite map_app.
Qed.

Lemma store_distinct (code : string) (info : NodeInformation) (n : nodes) :
  distinctCodes n -> distinctCodes (store code info n).
Proof.
  unfold distinctCodes. intros Hnd. rewrite store_codes.
  destruct (existsb (hasCode code) n) eqn:E; [exact Hnd |].
  apply NoDup_app; [exact Hnd | repeat constructor; auto |].
  intros a Ha [<- | []]. apply in_map_iff in Ha.
  destruct Ha as [e [He Hin]].
  assert (existsb (hasCode code) n = true); [| congruence].
  apply existsb_exists. exists e. split; [exact Hin | now apply hasCode_iff].
Qed.

Definition flag (b : bool) : nat := if b then 1%nat else 0%nat.

(** Replacing the record of a code moves the number of registered nodes
    by the difference between the new record and the old one. *)
Lemma registeredNodes_store (code : string) (old new : NodeInformation)
      (n : nodes) :
  distinctCodes n -> lookup code n = Some old ->
  (registeredNodes (store code new n) + flag (hasNodeId (code, old))
   = registeredNodes n + flag (hasNodeId (code, new)))%nat.
Proof.
  unfold distinctCodes, registeredNodes, store. intros Hnd Hl.
  rewrite (lookup_Some _ _ _ Hl). unfold lookup in Hl.
  induction n as [| [k v] n IH];
    cbn [map find filter fst option_map] in *; [discriminate |].
  inversion Hnd as [| ? ? Hnotin Hnd']; subst.
  destruct (hasCode code (k, v)) eqn:Hk.
  - cbn [option_map snd] in Hl. injection Hl as ->.
    assert (Hrest : existsb (hasCode code) n = false).
    { destruct (existsb (hasCode code) n) eqn:E; [| reflexivity].
      apply existsb_exists in E. destruct E as [x [Hin Hx]].
      apply hasCode_iff in Hk, Hx. cbn [fst] in Hk. exfalso. apply Hnotin.
      rewrite Hk, <- Hx. now apply in_map. }
    assert (Hsame : map (fun entry => if hasCode code entry
                                      then (fst entry, new) else entry) n = n).
    { clear - Hrest. induction n as [| x n IH]; simpl in *; [reflexivity |].
      destruct (hasCode code x); simpl in *; [discriminate |].
      now rewrite IH. }
    rewrite Hsame. set (rest := filter hasNodeId n).
    unfold hasNodeId. cbn [snd].
    destruct (Id new), (Id old); cbn [List.length flag]; lia.
  - specialize (IH Hnd' Hl).
    destruct (hasNodeId (k, v)); cbn [List.length]; lia.
Qed.

Lemma incr_small (c : Z) : 0 <= c -> c + 1 < 2 ^ 63 -> incr c = c + 1.
Proof.
  intros H0 H1. unfold incr. cbv zeta.
  destruct (c + 1 <? 2 ^ 63) eqn:E; [reflexivity |].
  apply Z.ltb_ge in E. lia.
Qed.

(** The loop of [CountRegisteredNodes] counts without wrapping around as
    long as the map has fewer than 2^63 entries. *)
Lemma count_loop (n : nodes) (c : Z) :
  0 <= c -> c + Z.of_nat (List.length n) < 2 ^ 63 ->
  fold_left (fun counter entry =>
               match Id (snd entry) with
               | Some _ => incr counter
               | None => counter
               end) n c
  = c + Z.of_nat (registeredNodes n).
Proof.
  revert c. unfold registeredNodes.
  induction n as [| [k v] n IH]; intros c H0 Hb;
    cbn [fold_left filter List.length snd] in *; [cbn; lia |].
  unfold hasNodeId at 1. cbn [snd].
  destruct (Id v); cbn [List.length].
  - rewrite incr_small by lia. rewrite IH by lia. lia.
  - rewrite IH by lia. lia.
Qed.

(** X19.  Every function of the map backend takes the mutex and gives it
    back: called with the mutex free it returns with the mutex free, on
    each of its paths; called while the mutex is held it waits, without
    reading or writing the map. *)
Theorem mutex_released (m : MapImpl) (id : option bytes)
        (code serverCert serverAddress gatewayAddress gatewayCert : string) :
  (mut m = false ->
   (exists err m', InsertNode id code serverCert serverAddress
                              gatewayAddress gatewayCert m = Done err m'
                   /\ mut m' = false) /\
   (exists err m', InsertNodeRegCode code m = Done err m' /\ mut m' = false) /\
   (exists r m', CountRegisteredNodes m = Done r m' /\ mut m' = false) /\
   (exists r m', GetNode code m = Done r m' /\ mut m' = false)) /\
  (mut m = true ->
   InsertNode id code serverCert serverAddress gatewayAddress gatewayCert m
   = Blocked /\
   InsertNodeRegCode code m = Blocked /\
   CountRegisteredNodes m = Blocked /\
   GetNode code m = Blocked).
Proof.
  split; intros Hm.
  - unfold InsertNode, InsertNodeRegCode, CountRegisteredNodes, GetNode,
      dbind, Lock, get_node. rewrite Hm. cbn [node mut].
    repeat split.
    + destruct (lookup code (node m)); cbn; eauto.
    + destruct (lookup code (node m)); cbn; eauto.
    + cbn. eauto.
    + destruct (lookup code (node m)); cbn; eauto.
  - unfold InsertNode, InsertNodeRegCode, CountRegisteredNodes, GetNode,
      dbind, Lock. rewrite Hm. auto.
Qed.

(** X20.  [InsertNodeRegCode] enforces unique registration codes.  For a
    code that is not in the map it returns no error and adds a record
    that holds the code and nothing else: [GetNode] returns it, the other
    codes read as before and the codes stay distinct.  For a code that is
    in the map it returns an error and leaves the map as it is. *)
Theorem InsertNodeRegCode_unique (m : MapImpl) (code : string)
        (Hfree : mut m = false) :
  let fresh := {| Code := code; Id := None; ServerAddress := "";
                  GatewayAddress := ""; NodeCertificate := "";
                  GatewayCertificate := "" |} in
  (lookup code (node m) = None ->
   let m' := {| mut := false; node := store code fresh (node m) |} in
   InsertNodeRegCode code m = Done None m' /\
   GetNode code m' = Done (Some fresh, None) m' /\
   (forall code', code' <> code ->
      lookup code' (node m') = lookup code' (node m)) /\
   (distinctCodes (node m) -> distinctCodes (node m'))) /\
  (forall info,
     lookup code (node m) = Some info ->
     InsertNodeRegCode code m
     = Done (Some (errors.Errorf "node registration code %s already exists"
                                 [code]))
            {| mut := false; node := node m |}).
Proof.
  intros fresh. split.
  - intros Hnone m'. split; [| split; [| split]].
    + unfold InsertNodeRegCode, dbind, Lock, get_node. rewrite Hfree.
      cbn [node mut]. now rewrite Hnone.
    + unfold GetNode, dbind, Lock, get_node. cbn [m' node mut].
      now rewrite lookup_store.
    + intros code' Hne. cbn [m' node]. now apply lookup_store_other.
    + cbn [m' node]. apply store_distinct.
  - intros info Hsome.
    unfold InsertNodeRegCode, dbind, Lock, get_node. rewrite Hfree.
    cbn [node mut]. now rewrite Hsome.
Qed.

(** X21.  [InsertNode] needs a registration code that is in the map.  For
    such a code it returns no error and fills the record of the code with
    the id, addresses and certificates it was given, keeping the code:
    [GetNode] returns that record and the other codes read as before.
    For a code that is not in the map it returns an error and leaves the
    map as it is, and so does [GetNode]. *)
Theorem InsertNode_needs_code (m : MapImpl) (id : option bytes)
        (code serverCert serverAddress gatewayAddress gatewayCert : string)
        (Hfree : mut m = false) :
  (forall info,
     lookup code (node m) = Some info ->
     let filled := {| Code := Code info; Id := id;
                      ServerAddress := serverAddress;
                      GatewayAddress := gatewayAddress;
                      NodeCertificate := serverCert;
                      GatewayCertificate := gatewayCert |} in
     let m' := {| mut := false; node := store code filled (node m) |} in
     InsertNode id code serverCert serverAddress gatewayAddress gatewayCert m
     = Done None m' /\
     GetNode code m' = Done (Some filled, None) m' /\
     (forall code', code' <> code ->
        lookup code' (node m') = lookup code' (node m)) /\
     map fst (node m') = map fst (node m)) /\
  (lookup code (node m) = None ->
   InsertNode id code serverCert serverAddress gatewayAddress gatewayCert m
   = Done (Some (errors.Errorf "unable to register node %s" [code]))
          {| mut := false; node := node m |} /\
   GetNode code m
   = Done (None, Some (errors.Errorf "unable to get node %s" [code]))
          {| mut := false; node := node m |}).
Proof.
  split.
  - intros info Hsome filled m'. split; [| split; [| split]].
    + unfold InsertNode, dbind, Lock, get_node. rewrite Hfree.
      cbn [node mut]. now rewrite Hsome.
    + unfold GetNode, dbind, Lock, get_node. cbn [m' node mut].
      now rewrite lookup_store.
    + intros code' Hne. cbn [m' node]. now apply lookup_store_other.
    + cbn [m' node]. rewrite store_codes.
      now rewrite (lookup_Some _ _ _ Hsome).
  - intros Hnone.
    unfold InsertNode, GetNode, dbind, Lock, get_node. rewrite Hfree.
    cbn [node mut]. now rewrite Hnone.
Qed.

(** X22.  [CountRegisteredNodes] returns the number of entries whose
    node has an id, with no error, and leaves the map as it is, as long
    as the map has fewer than 2^63 entries (so that the counter does not
    wrap around); the number does not depend on the order in which the
    map is ranged over. *)
Theorem CountRegisteredNodes_counts (m : MapImpl)
        (Hfree : mut m = false)
        (Hsize : Z.of_nat (List.length (node m)) < 2 ^ 63) :
  CountRegisteredNodes m
  = Done (Z.of_nat (registeredNodes (node m)), None)
         {| mut := false; node := node m |} /\
  forall n', Permutation (node m) n' ->
    CountRegisteredNodes {| mut := false; node := n' |}
    = Done (Z.of_nat (registeredNodes (node m)), None)
           {| mut := false; node := n' |}.
Proof.
  split.
  - unfold CountRegisteredNodes, dbind, Lock, get_node. rewrite Hfree.
    cbn [node mut Unlock dret]. rewrite count_loop by lia. reflexivity.
  - intros n' Hperm.
    unfold CountRegisteredNodes, dbind, Lock, get_node.
    cbn [node mut Unlock dret].
    rewrite count_loop;
      [| lia | rewrite <- (Permutation_length Hperm); lia].
    unfold registeredNodes.
    assert (Hf : Permutation (filter hasNodeId (node m))
                                         (filter hasNodeId n')).
    { clear - Hperm. induction Hperm; simpl.
      - constructor.
      - destruct (hasNodeId x); [now constructor | assumption].
      - destruct (hasNodeId x), (hasNodeId y);
          try apply Permutation_refl.
        constructor.
      - eapply perm_trans; eassumption. }
    now rewrite (Permutation_length Hf).
Qed.

(** X23.  How the count moves.  In a map with distinct codes,
    [InsertNodeRegCode] never changes the number of registered nodes,
    and [InsertNode] on a code of the map changes it by the difference
    between the new id and the old one: one more when a node without id
    gets one, one fewer when a node with an id is given the [nil] id, the
    same otherwise. *)
Theorem registeredNodes_moves (m : MapImpl) (code : string)
        (Hfree : mut m = false) (Hcodes : distinctCodes (node m)) :
  (forall err m',
     InsertNodeRegCode code m = Done err m' ->
     registeredNodes (node m') = registeredNodes (node m)) /\
  (forall id serverCert serverAddress gatewayAddress gatewayCert info m',
     lookup code (node m) = Some info ->
     InsertNode id code serverCert serverAddress gatewayAddress gatewayCert m
     = Done None m' ->
     match Id info, id with
     | None, Some _ =>
         registeredNodes (node m') = S (registeredNodes (node m))
     | Some _, None =>
         S (registeredNodes (node m')) = registeredNodes (node m)
     | _, _ => registeredNodes (node m') = registeredNodes (node m)
     end).
Proof.
  split.
  - intros err m'. unfold InsertNodeRegCode, dbind, Lock, get_node.
    rewrite Hfree. cbn [node mut].
    destruct (lookup code (node m)) eqn:Hl; cbn; intros E;
      injection E as <- <-; cbn [node]; [reflexivity |].
    unfold store. apply lookup_None in Hl. rewrite Hl.
    unfold registeredNodes. rewrite filter_app. simpl.
    now rewrite app_nil_r.
  - intros id serverCert serverAddress gatewayAddress gatewayCert info m'
           Hl. unfold InsertNode, dbind, Lock, get_node.
    rewrite Hfree. cbn [node mut]. rewrite Hl. cbn. intros E.
    injection E as <-. cbn [node].
    match goal with
    | |- context [store code ?new (node m)] =>
        pose proof (registeredNodes_store code info new (node m) Hcodes Hl)
          as Hmove
    end.
    unfold hasNodeId in Hmove. cbn [snd Id] in Hmove.
    destruct (Id info), id; simpl in Hmove; lia.
Qed.

End NodeDatabase.

(** ** Scenarios for the node database *)

Section NodeScenarios.
Import database.

(** A map with one code whose node is not registered yet. *)
Definition oneCode : MapImpl :=
  {| mut := false;
     node := [("AAAA", {| Code := "AAAA"; Id := None; ServerAddress := "";
                          GatewayAddress := ""; NodeCertificate := "";
                          GatewayCertificate := "" |})] |}.

Definition noCodes : MapImpl := {| mut := false; node := [] |}.

(** A code is inserted into the empty map; inserting it again fails. *)
Lemma InsertNodeRegCode_unique_witness :
  mut noCodes = false /\
  InsertNodeRegCode "AAAA" noCodes = Done None oneCode /\
  InsertNodeRegCode "AAAA" oneCode
  = Done (Some (errors.Errorf "node registration code %s already exists"
                              ["AAAA"])) oneCode.
Proof.
  split; [reflexivity |]. split.
  - exact (proj1 (proj1 (InsertNodeRegCode_unique noCodes "AAAA" eq_refl)
                        eq_refl)).
  - exact (proj2 (InsertNodeRegCode_unique oneCode "AAAA" eq_refl) _ eq_refl).
Defined.

(** A node registers under the code of the map; under another code it is
    turned away. *)
Lemma InsertNode_needs_code_witness :
  mut oneCode = false /\
  (exists m',
     InsertNode (Some iid) "AAAA" "cert" "0.0.0.0:11420" "0.0.0.0:22840"
                "gwcert" oneCode = Done None m' /\
     GetNode "AAAA" m'
     = Done (Some {| Code := "AAAA"; Id := Some iid;
                     ServerAddress := "0.0.0.0:11420";
                     GatewayAddress := "0.0.0.0:22840";
                     NodeCertificate := "cert";
                     GatewayCertificate := "gwcert" |}, None) m') /\
  InsertNode (Some iid) "BBBB" "cert" "0.0.0.0:11420" "0.0.0.0:22840"
             "gwcert" oneCode
  = Done (Some (errors.Errorf "unable to register node %s" ["BBBB"])) oneCode.
Proof.
  split; [reflexivity |]. split.
  - destruct (proj1 (InsertNode_needs_code oneCode (Some iid) "AAAA" "cert"
                       "0.0.0.0:11420" "0.0.0.0:22840" "gwcert" eq_refl)
                    _ eq_refl) as (Hins & Hget & _).
    eexists. split; [exact Hins | exact Hget].
  - exact (proj1 (proj2 (InsertNode_needs_code oneCode (Some iid) "BBBB"
                           "cert" "0.0.0.0:11420" "0.0.0.0:22840" "gwcert"
                           eq_refl) eq_refl)).
Defined.

(** No node of the one-code map is registered. *)
Lemma CountRegisteredNodes_counts_witness :
  mut oneCode = false /\
  Z.of_nat (List.length (node oneCode)) < 2 ^ 63 /\
  CountRegisteredNodes oneCode = Done (0, None) oneCode.
Proof.
  assert (Hsize : Z.of_nat (List.length (node oneCode)) < 2 ^ 63)
    by reflexivity.
  split; [reflexivity |]. split; [exact Hsize |].
  exact (proj1 (CountRegisteredNodes_counts oneCode eq_refl Hsize)).
Defined.

(** Registering the node of the code raises the count to one. *)
Lemma registeredNodes_moves_witness :
  mut oneCode = false /\ distinctCodes (node oneCode) /\
  forall m',
    InsertNode (Some iid) "AAAA" "cert" "0.0.0.0:11420" "0.0.0.0:22840"
               "gwcert" oneCode = Done None m' ->
    registeredNodes (node m') = 1%nat.
Proof.
  assert (Hd : distinctCodes (node oneCode))
    by (repeat constructor; simpl; tauto).
  split; [reflexivity |]. split; [exact Hd |].
  intros m' Hins.
  exact (proj2 (registeredNodes_moves oneCode "AAAA" eq_refl Hd)
               (Some iid) "cert" "0.0.0.0:11420" "0.0.0.0:22840" "gwcert"
               _ m' eq_refl Hins).
Defined.

End NodeScenarios.
